(** * Password-Strength-Checker: the scoring core, embedded and verified

    The repository ships the scoring core twice: an English build whose rule
    evaluators are private static methods of [PasswordChecker] with the two
    word lists written inline, and a Turkish build that imports the rule
    evaluators and the word lists from [Validators.ts].  Both are embedded
    here, side by side, as modules [EN] and [TR] (the latter on top of
    [Validators]).  Module [Main] embeds the random password generator of
    [main.ts], which both builds share. *)

From Stdlib Require Import ZArith QArith Qround List Bool Lia String Ascii
  DecimalString.
From stdpp Require Import list strings.
Import ListNotations.
Local Open Scope Z_scope.

(** ** JavaScript strings

    A JavaScript string is a sequence of UTF-16 code units; [s.length],
    [s[i]], [s.charCodeAt(i)], [s.includes(t)] and a regular expression
    without the [u] flag all work on code units.  A code unit is kept as the
    number [charCodeAt] returns. *)

Definition jsstring := list Z.

(** A literal of basic Latin characters, as the source writes it. *)
Definition str (s : string) : jsstring :=
  map (fun a => Z.of_N (N_of_ascii a)) (list_ascii_of_string s).

(** [String.prototype.toLowerCase] is the engine's Unicode lower-casing.  The
    development is parametric in it: every general statement below holds for
    whatever function the engine implements. *)
Class LowerCase := toLowerCase : jsstring -> jsstring.

(** Lower-casing restricted to basic Latin: what [toLowerCase] does on a
    string whose code units are all below 128.  Used for the concrete
    passwords evaluated below. *)
Definition asciiLower : LowerCase :=
  map (fun c => if (65 <=? c) && (c <=? 90) then c + 32 else c).

(** [s === t] on strings. *)
Fixpoint jsstring_eqb (s t : jsstring) : bool :=
  match s, t with
  | [], [] => true
  | a :: s', b :: t' => (a =? b) && jsstring_eqb s' t'
  | _, _ => false
  end.

(** [t] occurs at the very start of [s]. *)
Fixpoint startsWith (s t : jsstring) {struct t} : bool :=
  match t, s with
  | [], _ => true
  | _ :: _, [] => false
  | b :: t', a :: s' => (a =? b) && startsWith s' t'
  end.

(** [s.includes(t)]: [t] occurs in [s] as a contiguous substring. *)
Fixpoint includes (s t : jsstring) : bool :=
  startsWith s t ||
  match s with
  | [] => false
  | _ :: s' => includes s' t
  end.

(** [arr.includes(s)] on an array of strings. *)
Definition arrayIncludes (arr : list jsstring) (s : jsstring) : bool :=
  existsb (jsstring_eqb s) arr.

(** ** Character classes of the regular expressions *)

(** [[a-z]] *)
Definition isLower (c : Z) : bool := (97 <=? c) && (c <=? 122).
(** [[A-Z]] *)
Definition isUpper (c : Z) : bool := (65 <=? c) && (c <=? 90).
(** [\d] (no [u] flag: the ten digits 0-9) *)
Definition isDigit (c : Z) : bool := (48 <=? c) && (c <=? 57).
(** [[a-zA-Z0-9]] *)
Definition isAlnum (c : Z) : bool := isLower c || isUpper c || isDigit c.

(** The members of the class in [hasSpecialChars], in the order the source
    lists them; 34 is the double quote. *)
Definition specialClass : list Z :=
  str "!@#$%^&*()_+-=[]{};':" ++ [34] ++ str "\|,.<>/?".

Definition isListedSpecial (c : Z) : bool := existsb (Z.eqb c) specialClass.

(** [re.test(s)] for a regular expression that is a single character class. *)
Definition test (cls : Z -> bool) (s : jsstring) : bool := existsb cls s.

(** ** Result types *)

Inductive StrengthLevel :=
  | EMPTY | VERY_WEAK | WEAK | MEDIUM | STRONG | VERY_STRONG.

(** Position in the enumeration, for the order
    EMPTY < VERY_WEAK < WEAK < MEDIUM < STRONG < VERY_STRONG. *)
Definition levelRank (l : StrengthLevel) : nat :=
  match l with
  | EMPTY => 0 | VERY_WEAK => 1 | WEAK => 2
  | MEDIUM => 3 | STRONG => 4 | VERY_STRONG => 5
  end%nat.

Module ValidationResults.
Record t := mk {
  length : Z;
  hasLowercase : Z;
  hasUppercase : Z;
  hasNumbers : Z;
  hasSpecialChars : Z;
  repeatingCharsPenalty : Z;
  weakPasswordPenalty : Z;
  sequentialCharsPenalty : Z;
  varietyBonus : Z
}.
End ValidationResults.

Module Criteria.
Record t := mk {
  length : bool;
  hasLowercase : bool;
  hasUppercase : bool;
  hasNumbers : bool;
  hasSpecialChars : bool;
  noRepeatingChars : bool;
  notWeakPassword : bool;
  noSequentialChars : bool
}.

(** [Object.values(criteria)], in property order. *)
Definition values (c : t) : list bool :=
  [length c; hasLowercase c; hasUppercase c; hasNumbers c;
   hasSpecialChars c; noRepeatingChars c; notWeakPassword c;
   noSequentialChars c].
End Criteria.

Module PasswordAnalysis.
Record t := mk {
  score : Z;
  level : StrengthLevel;
  criteria : Criteria.t;
  feedback : list string;
  suggestions : list string
}.
End PasswordAnalysis.

(** [arr.filter(Boolean).length] *)
Definition countTrue (bs : list bool) : Z :=
  Z.of_nat (List.length (List.filter (fun b : bool => b) bs)).

(** [arr.push(x)] guarded by [if (b)]. *)
Definition pushIf (b : bool) (x : string) (arr : list string) : list string :=
  if b then arr ++ [x] else arr.

(** [`${n}`] for a length. *)
Definition showNat (n : nat) : string := NilZero.string_of_uint (Nat.to_uint n).

(** ** [String.prototype.trim]

    The code units [trim] strips: the WhiteSpace and LineTerminator
    productions of ECMAScript (2016 and later), all of them in the basic
    multilingual plane. *)

Definition isWhiteSpace (c : Z) : bool :=
  existsb (Z.eqb c)
    [9; 10; 11; 12; 13; 32; 160; 5760;
     8192; 8193; 8194; 8195; 8196; 8197; 8198; 8199; 8200; 8201; 8202;
     8232; 8233; 8239; 8287; 12288; 65279].

Fixpoint trimStart (s : jsstring) : jsstring :=
  match s with
  | [] => []
  | c :: s' => if isWhiteSpace c then trimStart s' else s
  end.

Definition trimEnd (s : jsstring) : jsstring := rev (trimStart (rev s)).

Definition trim (s : jsstring) : jsstring := trimEnd (trimStart s).

(** ** Rule evaluators

    [Validators.ts] and the private static methods of the English
    [PasswordChecker] have the same bodies; the only difference is the two
    word lists read by [checkWeakPassword] and [checkSequentialChars], which
    are therefore arguments here. *)

Module Rules.

Definition checkLength (password : jsstring) : Z :=
  let n := List.length password in
  if (n =? 0)%nat then 0
  else if (n <? 6)%nat then 5
  else if (n <? 8)%nat then 10
  else if (n <? 12)%nat then 20
  else 30.

Definition hasLowercase (password : jsstring) : Z :=
  if test isLower password then 10 else 0.

Definition hasUppercase (password : jsstring) : Z :=
  if test isUpper password then 10 else 0.

Definition hasNumbers (password : jsstring) : Z :=
  if test isDigit password then 10 else 0.

Definition hasSpecialChars (password : jsstring) : Z :=
  if test isListedSpecial password then 15 else 0.

(** The [for] loop of [checkRepeatingChars] from index [i] on: [prev] is
    [password[i - 1]], [rest] is [password.slice(i)]; returns the final
    [penalty]. *)
Fixpoint repeatingLoop (prev : Z) (repeatCount penalty : Z)
    (rest : jsstring) : Z :=
  match rest with
  | [] => penalty
  | c :: rest' =>
      if c =? prev then
        let repeatCount := repeatCount + 1 in
        let penalty := if 3 <=? repeatCount then penalty + 5 else penalty in
        repeatingLoop c repeatCount penalty rest'
      else
        repeatingLoop c 1 penalty rest'
  end.

Definition checkRepeatingChars (password : jsstring) : Z :=
  if (List.length password <? 3)%nat then 0
  else
    match password with
    | [] => 0
    | c0 :: rest => Z.min (repeatingLoop c0 1 0 rest) 15
    end.

(** The partial-match loop of [checkWeakPassword]: does some entry of
    length at least 4 occur in [lowerPassword]? *)
Fixpoint partialMatch (lowerPassword : jsstring)
    (weakPasswords : list jsstring) : bool :=
  match weakPasswords with
  | [] => false
  | weakPass :: more =>
      if includes lowerPassword weakPass
         && (4 <=? List.length weakPass)%nat
      then true
      else partialMatch lowerPassword more
  end.

Definition checkWeakPassword `{LowerCase} (weakPasswords : list jsstring)
    (password : jsstring) : Z :=
  let lowerPassword := toLowerCase password in
  if arrayIncludes weakPasswords lowerPassword then 20
  else if partialMatch lowerPassword weakPasswords then 15
  else 0.

(** The pattern loop of [checkSequentialChars]: 10 per listed pattern that
    occurs in [lowerPassword]. *)
Definition patternPenalty (lowerPassword : jsstring)
    (sequentialPatterns : list jsstring) : Z :=
  fold_left
    (fun penalty pattern =>
       if includes lowerPassword pattern then penalty + 10 else penalty)
    sequentialPatterns 0.

(** The second loop of [checkSequentialChars]: is there an index with
    three code units going up by one or down by one? *)
Fixpoint hasRunOfThree (password : jsstring) : bool :=
  match password with
  | charCode1 :: ((charCode2 :: charCode3 :: _) as tail) =>
      if ((charCode2 =? charCode1 + 1) && (charCode3 =? charCode2 + 1))
         || ((charCode2 =? charCode1 - 1) && (charCode3 =? charCode2 - 1))
      then true
      else hasRunOfThree tail
  | _ => false
  end.

Definition checkSequentialChars `{LowerCase}
    (sequentialPatterns : list jsstring) (password : jsstring) : Z :=
  let lowerPassword := toLowerCase password in
  let penalty := patternPenalty lowerPassword sequentialPatterns in
  let penalty := if hasRunOfThree password then penalty + 5 else penalty in
  Z.min penalty 15.

Definition checkCharacterVariety (password : jsstring) : Z :=
  let hasLower := test isLower password in
  let hasUpper := test isUpper password in
  let hasDigit := test isDigit password in
  let hasSpecial := test (fun c => negb (isAlnum c)) password in
  let typeCount := countTrue [hasLower; hasUpper; hasDigit; hasSpecial] in
  if typeCount =? 4 then 10
  else if typeCount =? 3 then 5
  else if typeCount =? 2 then 2
  else 0.

Definition runAllValidations `{LowerCase}
    (weakPasswords sequentialPatterns : list jsstring)
    (password : jsstring) : ValidationResults.t :=
  {| ValidationResults.length := checkLength password;
     ValidationResults.hasLowercase := hasLowercase password;
     ValidationResults.hasUppercase := hasUppercase password;
     ValidationResults.hasNumbers := hasNumbers password;
     ValidationResults.hasSpecialChars := hasSpecialChars password;
     ValidationResults.repeatingCharsPenalty := checkRepeatingChars password;
     ValidationResults.weakPasswordPenalty :=
       checkWeakPassword weakPasswords password;
     ValidationResults.sequentialCharsPenalty :=
       checkSequentialChars sequentialPatterns password;
     ValidationResults.varietyBonus := checkCharacterVariety password |}.

End Rules.

(** ** [Validators.ts] *)

Module Validators.

Definition WEAK_PASSWORDS : list jsstring := map str
  ["password"; "123456"; "12345678"; "123456789"; "qwerty";
   "abc123"; "password1"; "admin"; "letmein"; "welcome";
   "monkey"; "football"; "iloveyou"; "123123"; "1234";
   "12345"; "1234567"; "sunshine"; "master"; "hello";
   "charlie"; "aa123456"; "donald"; "password123"; "qwerty123";
   "admin123"; "pass"; "test"; "guest"; "temp"; "user"]%string.

Definition SEQUENTIAL_PATTERNS : list jsstring := map str
  ["12345"; "23456"; "34567"; "45678"; "56789"; "67890";
   "abcdef"; "bcdefg"; "cdefgh"; "defghi"; "efghij"; "fghijk";
   "ghijkl"; "hijklm"; "ijklmn"; "jklmno"; "klmnop"; "lmnopq";
   "mnopqr"; "nopqrs"; "opqrst"; "pqrstu"; "qrstuv"; "rstuvw";
   "stuvwx"; "tuvwxy"; "uvwxyz"]%string.

Definition checkLength := Rules.checkLength.
Definition hasLowercase := Rules.hasLowercase.
Definition hasUppercase := Rules.hasUppercase.
Definition hasNumbers := Rules.hasNumbers.
Definition hasSpecialChars := Rules.hasSpecialChars.
Definition checkRepeatingChars := Rules.checkRepeatingChars.
Definition checkCharacterVariety := Rules.checkCharacterVariety.

Definition checkWeakPassword `{LowerCase} (password : jsstring) : Z :=
  Rules.checkWeakPassword WEAK_PASSWORDS password.

Definition checkSequentialChars `{LowerCase} (password : jsstring) : Z :=
  Rules.checkSequentialChars SEQUENTIAL_PATTERNS password.

Definition runAllValidations `{LowerCase} (password : jsstring)
    : ValidationResults.t :=
  {| ValidationResults.length := checkLength password;
     ValidationResults.hasLowercase := hasLowercase password;
     ValidationResults.hasUppercase := hasUppercase password;
     ValidationResults.hasNumbers := hasNumbers password;
     ValidationResults.hasSpecialChars := hasSpecialChars password;
     ValidationResults.repeatingCharsPenalty := checkRepeatingChars password;
     ValidationResults.weakPasswordPenalty := checkWeakPassword password;
     ValidationResults.sequentialCharsPenalty :=
       checkSequentialChars password;
     ValidationResults.varietyBonus := checkCharacterVariety password |}.

End Validators.

(** [Math.round] on a number that is an integer already. *)
Definition Math_round (x : Z) : Z := x.

(** ** [PasswordChecker.ts], English build *)

Module EN.

Definition getEmptyAnalysis : PasswordAnalysis.t :=
  {| PasswordAnalysis.score := 0;
     PasswordAnalysis.level := EMPTY;
     PasswordAnalysis.criteria :=
       {| Criteria.length := false;
          Criteria.hasLowercase := false;
          Criteria.hasUppercase := false;
          Criteria.hasNumbers := false;
          Criteria.hasSpecialChars := false;
          Criteria.noRepeatingChars := false;
          Criteria.notWeakPassword := false;
          Criteria.noSequentialChars := false |};
     PasswordAnalysis.feedback := ["Please enter a password to analyze"];
     PasswordAnalysis.suggestions :=
       ["Password should be at least 8 characters long"] |}%string.

Definition determineStrengthLevel (score : Z) : StrengthLevel :=
  if score =? 0 then EMPTY
  else if score <? 20 then VERY_WEAK
  else if score <? 40 then WEAK
  else if score <? 60 then MEDIUM
  else if score <? 80 then STRONG
  else VERY_STRONG.

Definition checkLength := Rules.checkLength.
Definition hasLowercase := Rules.hasLowercase.
Definition hasUppercase := Rules.hasUppercase.
Definition hasNumbers := Rules.hasNumbers.
Definition hasSpecialChars := Rules.hasSpecialChars.
Definition checkRepeatingChars := Rules.checkRepeatingChars.
Definition checkCharacterVariety := Rules.checkCharacterVariety.

(** The list written inside [checkWeakPassword]. *)
Definition weakPasswords : list jsstring := map str
  ["password"; "123456"; "12345678"; "123456789"; "qwerty";
   "abc123"; "password1"; "admin"; "letmein"; "welcome";
   "monkey"; "football"; "iloveyou"; "123123"; "1234";
   "12345"; "1234567"; "sunshine"; "master"; "hello"]%string.

Definition checkWeakPassword `{LowerCase} (password : jsstring) : Z :=
  Rules.checkWeakPassword weakPasswords password.

(** The list written inside [checkSequentialChars]. *)
Definition sequentialPatterns : list jsstring := map str
  ["12345"; "23456"; "34567"; "45678"; "56789"; "67890";
   "abcdef"; "bcdefg"; "cdefgh"; "defghi"; "efghij";
   "fghijk"; "ghijkl"; "hijklm"; "ijklmn"; "jklmno";
   "klmnop"; "lmnopq"; "mnopqr"; "nopqrs"; "opqrst"]%string.

Definition checkSequentialChars `{LowerCase} (password : jsstring) : Z :=
  Rules.checkSequentialChars sequentialPatterns password.

Definition runAllValidations `{LowerCase} (password : jsstring)
    : ValidationResults.t :=
  {| ValidationResults.length := checkLength password;
     ValidationResults.hasLowercase := hasLowercase password;
     ValidationResults.hasUppercase := hasUppercase password;
     ValidationResults.hasNumbers := hasNumbers password;
     ValidationResults.hasSpecialChars := hasSpecialChars password;
     ValidationResults.repeatingCharsPenalty := checkRepeatingChars password;
     ValidationResults.weakPasswordPenalty := checkWeakPassword password;
     ValidationResults.sequentialCharsPenalty :=
       checkSequentialChars password;
     ValidationResults.varietyBonus := checkCharacterVariety password |}.

(** The length message that opens the feedback. *)
Definition lengthFeedback (n : nat) : string :=
  if (n <? 8)%nat then
    "Password is too short (" +:+ showNat n
      +:+ " characters). Minimum 8 characters recommended."
  else if (n <? 12)%nat then
    "Password is medium length (" +:+ showNat n
      +:+ " characters). 12+ characters is more secure."
  else
    "Good password length (" +:+ showNat n +:+ " characters).".

Definition generateFeedback (password : jsstring) (criteria : Criteria.t)
    : list string :=
  let feedback := [lengthFeedback (List.length password)] in
  let feedback := pushIf (negb (Criteria.hasLowercase criteria))
    "Missing lowercase letters. Add some lowercase letters (a-z)."
    feedback in
  let feedback := pushIf (negb (Criteria.hasUppercase criteria))
    "Missing uppercase letters. Add some uppercase letters (A-Z)."
    feedback in
  let feedback := pushIf (negb (Criteria.hasNumbers criteria))
    "Missing numbers. Add some numbers (0-9)." feedback in
  let feedback := pushIf (negb (Criteria.hasSpecialChars criteria))
    "Missing special characters. Add some special characters (!@#$%^&* etc.)."
    feedback in
  let feedback := pushIf (negb (Criteria.noRepeatingChars criteria))
    "Contains repeating characters. Try to avoid character repetitions."
    feedback in
  let feedback := pushIf (negb (Criteria.notWeakPassword criteria))
    "Password contains common words or patterns." feedback in
  let feedback := pushIf (negb (Criteria.noSequentialChars criteria))
    "Contains sequential characters (like abc, 123)." feedback in
  let positiveCount := countTrue (Criteria.values criteria) in
  if 6 <=? positiveCount then
    feedback ++ ["Excellent! Your password meets most security criteria."]
  else if 4 <=? positiveCount then
    feedback
      ++ ["Good start! Your password could be stronger with more variety."]
  else feedback.

Definition generateSuggestions (criteria : Criteria.t) (score : Z)
    : list string :=
  let suggestions := [] in
  let suggestions := pushIf (score <? 50)
    "To strengthen your password:" suggestions in
  let suggestions := pushIf (negb (Criteria.length criteria))
    "• Increase length to at least 12 characters" suggestions in
  let suggestions := pushIf (negb (Criteria.hasLowercase criteria))
    "• Add lowercase letters (a-z)" suggestions in
  let suggestions := pushIf (negb (Criteria.hasUppercase criteria))
    "• Add uppercase letters (A-Z)" suggestions in
  let suggestions := pushIf (negb (Criteria.hasNumbers criteria))
    "• Add numbers (0-9)" suggestions in
  let suggestions := pushIf (negb (Criteria.hasSpecialChars criteria))
    "• Add special characters (!@#$%^&* etc.)" suggestions in
  let suggestions := pushIf (negb (Criteria.noRepeatingChars criteria))
    "• Avoid repeating the same character multiple times" suggestions in
  let suggestions := pushIf (negb (Criteria.notWeakPassword criteria))
    "• Avoid common words and predictable patterns" suggestions in
  let suggestions := pushIf (negb (Criteria.noSequentialChars criteria))
    "• Avoid sequential characters (abc, 123, etc.)" suggestions in
  let suggestions := pushIf (70 <=? score)
    "Good job! Your password has decent security." suggestions in
  let suggestions := pushIf (85 <=? score)
    "Excellent! Your password is very secure." suggestions in
  suggestions.

Definition analyze `{LowerCase} (password : jsstring)
    : PasswordAnalysis.t :=
  if (List.length password =? 0)%nat then getEmptyAnalysis
  else
    let validationResults := runAllValidations password in
    let totalScore :=
      ValidationResults.length validationResults
      + ValidationResults.hasLowercase validationResults
      + ValidationResults.hasUppercase validationResults
      + ValidationResults.hasNumbers validationResults
      + ValidationResults.hasSpecialChars validationResults
      + ValidationResults.varietyBonus validationResults in
    let totalScore :=
      totalScore
      - (ValidationResults.repeatingCharsPenalty validationResults
         + ValidationResults.weakPasswordPenalty validationResults
         + ValidationResults.sequentialCharsPenalty validationResults) in
    let totalScore := Z.max 0 (Z.min totalScore 100) in
    let level := determineStrengthLevel totalScore in
    let criteria :=
      {| Criteria.length :=
           20 <=? ValidationResults.length validationResults;
         Criteria.hasLowercase :=
           0 <? ValidationResults.hasLowercase validationResults;
         Criteria.hasUppercase :=
           0 <? ValidationResults.hasUppercase validationResults;
         Criteria.hasNumbers :=
           0 <? ValidationResults.hasNumbers validationResults;
         Criteria.hasSpecialChars :=
           0 <? ValidationResults.hasSpecialChars validationResults;
         Criteria.noRepeatingChars :=
           ValidationResults.repeatingCharsPenalty validationResults =? 0;
         Criteria.notWeakPassword :=
           ValidationResults.weakPasswordPenalty validationResults =? 0;
         Criteria.noSequentialChars :=
           ValidationResults.sequentialCharsPenalty validationResults =? 0
      |} in
    let feedback := generateFeedback password criteria in
    let suggestions := generateSuggestions criteria totalScore in
    {| PasswordAnalysis.score := Math_round totalScore;
       PasswordAnalysis.level := level;
       PasswordAnalysis.criteria := criteria;
       PasswordAnalysis.feedback := feedback;
       PasswordAnalysis.suggestions := suggestions |}.

Definition estimateTimeToCrack (password : jsstring) (score : Z)
    : string :=
  if (List.length password =? 0)%nat
     || (List.length (trim password) =? 0)%nat
  then "Please enter a password"
  else
    let length := List.length password in
    if (score <? 20) || (length <? 6)%nat then "Instantly"
    else if score <? 30 then "Seconds"
    else if score <? 40 then "Minutes"
    else if score <? 50 then "Hours"
    else if score <? 60 then "Days"
    else if score <? 70 then "Weeks"
    else if score <? 80 then "Months"
    else if score <? 90 then "Years"
    else if (16 <=? length)%nat then "Decades"
    else if (12 <=? length)%nat then "Years to decades"
    else "Years".

End EN.

(** ** [PasswordChecker.ts], Turkish build (on [Validators.ts]) *)

Module TR.

Definition getEmptyAnalysis : PasswordAnalysis.t :=
  {| PasswordAnalysis.score := 0;
     PasswordAnalysis.level := EMPTY;
     PasswordAnalysis.criteria :=
       {| Criteria.length := false;
          Criteria.hasLowercase := false;
          Criteria.hasUppercase := false;
          Criteria.hasNumbers := false;
          Criteria.hasSpecialChars := false;
          Criteria.noRepeatingChars := false;
          Criteria.notWeakPassword := false;
          Criteria.noSequentialChars := false |};
     PasswordAnalysis.feedback := ["Lütfen bir parola girin"];
     PasswordAnalysis.suggestions :=
       ["Parola uzunluğu en az 8 karakter olmalıdır"] |}%string.

Definition determineStrengthLevel (score : Z) : StrengthLevel :=
  if score =? 0 then EMPTY
  else if score <? 30 then VERY_WEAK
  else if score <? 50 then WEAK
  else if score <? 70 then MEDIUM
  else if score <? 85 then STRONG
  else VERY_STRONG.

(** The length message that opens the feedback. *)
Definition lengthFeedback (n : nat) : string :=
  if (n <? 8)%nat then
    "Parolanız çok kısa (" +:+ showNat n
      +:+ " karakter). En az 8 karakter önerilir."
  else if (n <? 12)%nat then
    "Parolanız orta uzunlukta (" +:+ showNat n
      +:+ " karakter). 12+ karakter daha güvenlidir."
  else
    "Parolanız yeterli uzunlukta (" +:+ showNat n +:+ " karakter).".

Definition generateFeedback (password : jsstring)
    (validationResults : ValidationResults.t) (criteria : Criteria.t)
    : list string :=
  let feedback := [lengthFeedback (List.length password)] in
  let feedback := pushIf (negb (Criteria.hasLowercase criteria))
    "Küçük harf içermiyor. Küçük harf ekleyin." feedback in
  let feedback := pushIf (negb (Criteria.hasUppercase criteria))
    "Büyük harf içermiyor. Büyük harf ekleyin." feedback in
  let feedback := pushIf (negb (Criteria.hasNumbers criteria))
    "Rakam içermiyor. Rakam ekleyin." feedback in
  let feedback := pushIf (negb (Criteria.hasSpecialChars criteria))
    "Özel karakter içermiyor. Özel karakter ekleyin." feedback in
  let feedback := pushIf (negb (Criteria.noRepeatingChars criteria))
    "Tekrarlanan karakterler içeriyor. Tekrarları azaltın." feedback in
  let feedback := pushIf (negb (Criteria.notWeakPassword criteria))
    "Yaygın kullanılan bir parola veya benzeri içeriyor." feedback in
  let feedback := pushIf (negb (Criteria.noSequentialChars criteria))
    "Sıralı karakterler içeriyor (abc, 123 gibi)." feedback in
  let positiveCount := countTrue (Criteria.values criteria) in
  if 6 <=? positiveCount then
    feedback ++ ["Harika! Parolanız çoğu güvenlik kriterini karşılıyor."]
  else if 4 <=? positiveCount then
    feedback
      ++ ["İyi başlangıç! Ancak daha fazla güvenlik için geliştirilebilir."]
  else feedback.

Definition generateSuggestions (criteria : Criteria.t) (score : Z)
    : list string :=
  let suggestions := [] in
  let suggestions := pushIf (score <? 50)
    "Parolanızı güçlendirmek için aşağıdaki önerileri uygulayın:"
    suggestions in
  let suggestions := pushIf (negb (Criteria.length criteria))
    "• Parola uzunluğunu en az 12 karaktere çıkarın" suggestions in
  let suggestions := pushIf (negb (Criteria.hasLowercase criteria))
    "• En az bir küçük harf ekleyin (a-z)" suggestions in
  let suggestions := pushIf (negb (Criteria.hasUppercase criteria))
    "• En az bir büyük harf ekleyin (A-Z)" suggestions in
  let suggestions := pushIf (negb (Criteria.hasNumbers criteria))
    "• En az bir rakam ekleyin (0-9)" suggestions in
  let suggestions := pushIf (negb (Criteria.hasSpecialChars criteria))
    "• En az bir özel karakter ekleyin (!@#$%^&* gibi)" suggestions in
  let suggestions := pushIf (negb (Criteria.noRepeatingChars criteria))
    "• Aynı karakteri arka arkaya tekrarlamaktan kaçının" suggestions in
  let suggestions := pushIf (negb (Criteria.notWeakPassword criteria))
    "• Yaygın kullanılan kelimeler ve parolaları kullanmayın"
    suggestions in
  let suggestions := pushIf (negb (Criteria.noSequentialChars criteria))
    "• Sıralı karakter dizilerinden kaçının (abc, 123 gibi)"
    suggestions in
  let suggestions := pushIf (70 <=? score)
    "Güzel! Parolanız iyi bir güvenlik seviyesine sahip." suggestions in
  let suggestions := pushIf (85 <=? score)
    "Mükemmel! Parolanız çok güçlü görünüyor." suggestions in
  suggestions.

Definition analyze `{LowerCase} (password : jsstring)
    : PasswordAnalysis.t :=
  if (List.length password =? 0)%nat then getEmptyAnalysis
  else
    let validationResults := Validators.runAllValidations password in
    let totalScore :=
      ValidationResults.length validationResults
      + ValidationResults.hasLowercase validationResults
      + ValidationResults.hasUppercase validationResults
      + ValidationResults.hasNumbers validationResults
      + ValidationResults.hasSpecialChars validationResults
      + ValidationResults.varietyBonus validationResults in
    let totalScore :=
      totalScore
      - (ValidationResults.repeatingCharsPenalty validationResults
         + ValidationResults.weakPasswordPenalty validationResults
         + ValidationResults.sequentialCharsPenalty validationResults) in
    let totalScore := Z.max 0 (Z.min totalScore 100) in
    let level := determineStrengthLevel totalScore in
    let criteria :=
      {| Criteria.length :=
           20 <=? ValidationResults.length validationResults;
         Criteria.hasLowercase :=
           0 <? ValidationResults.hasLowercase validationResults;
         Criteria.hasUppercase :=
           0 <? ValidationResults.hasUppercase validationResults;
         Criteria.hasNumbers :=
           0 <? ValidationResults.hasNumbers validationResults;
         Criteria.hasSpecialChars :=
           0 <? ValidationResults.hasSpecialChars validationResults;
         Criteria.noRepeatingChars :=
           ValidationResults.repeatingCharsPenalty validationResults =? 0;
         Criteria.notWeakPassword :=
           ValidationResults.weakPasswordPenalty validationResults =? 0;
         Criteria.noSequentialChars :=
           ValidationResults.sequentialCharsPenalty validationResults =? 0
      |} in
    let feedback := generateFeedback password validationResults criteria in
    let suggestions := generateSuggestions criteria totalScore in
    {| PasswordAnalysis.score := totalScore;
       PasswordAnalysis.level := level;
       PasswordAnalysis.criteria := criteria;
       PasswordAnalysis.feedback := feedback;
       PasswordAnalysis.suggestions := suggestions |}.

End TR.

(** ** [main.ts]: the random password generator

    The generator is the same in the English and the Turkish build.  Its
    only effect is [Math.random()]: the sequence of numbers the engine hands
    out is an argument, [random k] being the result of call number [k], and
    the functions thread the number of calls made so far.  A result of
    [Math.random()] is kept as the rational number it denotes, and
    [Math.floor(Math.random() * n)] is computed exactly. *)

Module Main.

Definition Rand (A : Type) : Type := nat -> A * nat.

Definition ret {A : Type} (a : A) : Rand A := fun k => (a, k).

Definition bind {A B : Type} (m : Rand A) (f : A -> Rand B) : Rand B :=
  fun k => let (a, k') := m k in f a k'.

Notation "'let*' x ':=' m 'in' f" := (bind m (fun x => f))
  (at level 10, x name, m at level 200, f at level 200).

Section Generator.
Variable random : nat -> Q.

Definition Math_random : Rand Q := fun k => (random k, S k).

(** [Math.floor(Math.random() * n)] *)
Definition randomBelow (n : Z) : Rand Z :=
  let* r := Math_random in ret (Qfloor (r * inject_Z n)).

(** [str[i]]; [None] is [undefined]. *)
Definition charAt (s : jsstring) (i : Z) : option Z :=
  if i <? 0 then None else s !! Z.to_nat i.

(** [s += x] where [x] is a character or [undefined]. *)
Definition append (s : jsstring) (x : option Z) : jsstring :=
  match x with
  | Some c => s ++ [c]
  | None => s ++ str "undefined"
  end.

Definition getRandomChar (s : jsstring) : Rand (option Z) :=
  let* i := randomBelow (Z.of_nat (List.length s)) in ret (charAt s i).

(** An array of one-character strings; [None] is [undefined] or a hole. *)
Definition array := list (option Z).

(** [str.split('')] *)
Definition split (s : jsstring) : array := map Some s.

(** [array.join('')]: [undefined] and holes join as the empty string. *)
Definition join (a : array) : jsstring := omap (fun x => x) a.

(** [array[i]] *)
Definition arrayGet (a : array) (i : Z) : option Z :=
  if i <? 0 then None
  else match a !! Z.to_nat i with
       | Some x => x
       | None => None
       end.

(** [array[i] = x]: a write past the end extends the array with holes; a
    negative index sets a property and leaves the elements alone. *)
Definition arraySet (a : array) (i : Z) (x : option Z) : array :=
  if i <? 0 then a
  else
    let n := Z.to_nat i in
    if (n <? List.length a)%nat then <[n:=x]> a
    else a ++ replicate (n - List.length a) None ++ [x].

(** The loop of [shuffleString], from index [i] down to 1. *)
Fixpoint shuffleLoop (i : nat) (arr : array) : Rand array :=
  match i with
  | O => ret arr
  | S i' =>
      let* j := randomBelow (Z.of_nat (S i') + 1) in
      let aj := arrayGet arr j in
      let ai := arrayGet arr (Z.of_nat (S i')) in
      let arr := arraySet arr (Z.of_nat (S i')) aj in
      let arr := arraySet arr j ai in
      shuffleLoop i' arr
  end.

Definition shuffleString (s : jsstring) : Rand jsstring :=
  let arr := split s in
  let* arr := shuffleLoop (List.length arr - 1) arr in
  ret (join arr).

Definition lowercase : jsstring := str "abcdefghijklmnopqrstuvwxyz".
Definition uppercase : jsstring := str "ABCDEFGHIJKLMNOPQRSTUVWXYZ".
Definition numbers : jsstring := str "0123456789".
Definition special : jsstring := str "!@#$%^&*()_+-=[]{}|;:,.<>?".

Definition allChars : jsstring := lowercase ++ uppercase ++ numbers ++ special.

(** The loop that fills the password up, [n] more iterations to go. *)
Fixpoint fillLoop (n : nat) (password : jsstring) : Rand jsstring :=
  match n with
  | O => ret password
  | S n' =>
      let* c := getRandomChar allChars in
      fillLoop n' (append password c)
  end.

Definition generateRandomPassword (length : Z) : Rand jsstring :=
  let password := [] in
  let* c := getRandomChar lowercase in
  let password := append password c in
  let* c := getRandomChar uppercase in
  let password := append password c in
  let* c := getRandomChar numbers in
  let password := append password c in
  let* c := getRandomChar special in
  let password := append password c in
  let* password := fillLoop (Z.to_nat (length - 4)) password in
  shuffleString password.

End Generator.

End Main.

(** ** Vocabulary of the statements *)

(** [t] occurs in [s]: [s] is [pre ++ t ++ post]. *)
Definition occursIn (t s : jsstring) : Prop :=
  exists pre post, s = pre ++ t ++ post.

(** Sum of the six bonuses of a validation result. *)
Definition bonuses (v : ValidationResults.t) : Z :=
  ValidationResults.length v + ValidationResults.hasLowercase v
  + ValidationResults.hasUppercase v + ValidationResults.hasNumbers v
  + ValidationResults.hasSpecialChars v + ValidationResults.varietyBonus v.

(** Sum of the three penalties of a validation result. *)
Definition penalties (v : ValidationResults.t) : Z :=
  ValidationResults.repeatingCharsPenalty v
  + ValidationResults.weakPasswordPenalty v
  + ValidationResults.sequentialCharsPenalty v.

(** [Math.max(0, Math.min(x, 100))] *)
Definition clamp (x : Z) : Z := Z.max 0 (Z.min x 100).

(** Some listed weak password of length at least 4 occurs in [lp]. *)
Definition containsListedWeak (weak : list jsstring) (lp : jsstring) : Prop :=
  exists w, In w weak /\ (4 <= List.length w)%nat /\ occursIn w lp.

(** The entries of [texts] whose flag in [flags] is false, in the order of
    [texts]. *)
Fixpoint unmet (flags : list bool) (texts : list string) : list string :=
  match flags, texts with
  | b :: flags', x :: texts' =>
      if b then unmet flags' texts' else x :: unmet flags' texts'
  | _, _ => []
  end.

(** The fixed rule order of the "missing" feedback messages: lowercase,
    uppercase, digit, special, repeating, weak, sequential. *)
Definition EN_feedbackOrder : list string :=
  ["Missing lowercase letters. Add some lowercase letters (a-z).";
   "Missing uppercase letters. Add some uppercase letters (A-Z).";
   "Missing numbers. Add some numbers (0-9).";
   "Missing special characters. Add some special characters (!@#$%^&* etc.).";
   "Contains repeating characters. Try to avoid character repetitions.";
   "Password contains common words or patterns.";
   "Contains sequential characters (like abc, 123)."]%string.

Definition TR_feedbackOrder : list string :=
  ["Küçük harf içermiyor. Küçük harf ekleyin.";
   "Büyük harf içermiyor. Büyük harf ekleyin.";
   "Rakam içermiyor. Rakam ekleyin.";
   "Özel karakter içermiyor. Özel karakter ekleyin.";
   "Tekrarlanan karakterler içeriyor. Tekrarları azaltın.";
   "Yaygın kullanılan bir parola veya benzeri içeriyor.";
   "Sıralı karakterler içeriyor (abc, 123 gibi)."]%string.

(** The fixed rule order of the suggestion bullets: length, lowercase,
    uppercase, digit, special, repeating, weak, sequential. *)
Definition EN_suggestionOrder : list string :=
  ["• Increase length to at least 12 characters";
   "• Add lowercase letters (a-z)";
   "• Add uppercase letters (A-Z)";
   "• Add numbers (0-9)";
   "• Add special characters (!@#$%^&* etc.)";
   "• Avoid repeating the same character multiple times";
   "• Avoid common words and predictable patterns";
   "• Avoid sequential characters (abc, 123, etc.)"]%string.

Definition TR_suggestionOrder : list string :=
  ["• Parola uzunluğunu en az 12 karaktere çıkarın";
   "• En az bir küçük harf ekleyin (a-z)";
   "• En az bir büyük harf ekleyin (A-Z)";
   "• En az bir rakam ekleyin (0-9)";
   "• En az bir özel karakter ekleyin (!@#$%^&* gibi)";
   "• Aynı karakteri arka arkaya tekrarlamaktan kaçının";
   "• Yaygın kullanılan kelimeler ve parolaları kullanmayın";
   "• Sıralı karakter dizilerinden kaçının (abc, 123 gibi)"]%string.

(** The windows of three consecutive code units of a string, left to
    right. *)
Fixpoint windows3 (p : jsstring) : list (Z * Z * Z) :=
  match p with
  | a :: ((b :: c :: _) as tl) => (a, b, c) :: windows3 tl
  | _ => []
  end.

(** Number of positions that complete three equal code units in a row. *)
Definition tripleCount (p : jsstring) : Z :=
  Z.of_nat (List.length
    (List.filter (fun w : Z * Z * Z =>
                    let '(a, b, c) := w in (a =? b) && (b =? c))
                 (windows3 p))).

(** Number of listed patterns that occur in [lp]. *)
Definition patternCount (lp : jsstring) (patterns : list jsstring) : Z :=
  Z.of_nat (List.length (List.filter (includes lp) patterns)).

(** Three consecutive code units going up by one, or down by one, occur in
    [p]. *)
Definition hasStepRun (p : jsstring) : Prop :=
  exists a, occursIn [a; a + 1; a + 2] p \/ occursIn [a; a - 1; a - 2] p.

(** The window goes up by one twice, or down by one twice. *)
Definition isStepWindow (w : Z * Z * Z) : bool :=
  let '(a, b, c) := w in
  ((b =? a + 1) && (c =? b + 1)) || ((b =? a - 1) && (c =? b - 1)).

(** The labels of [estimateTimeToCrack], from the shortest time to the
    longest. *)
Definition crackLabels : list string :=
  ["Instantly"; "Seconds"; "Minutes"; "Hours"; "Days"; "Weeks"; "Months";
   "Years"; "Years to decades"; "Decades"]%string.

(** Position of a label in a list of labels (the length of the list if it
    is absent). *)
Fixpoint indexOf (l : string) (labels : list string) : nat :=
  match labels with
  | [] => 0
  | x :: rest => if String.eqb x l then 0 else S (indexOf l rest)
  end.

Definition crackRank (l : string) : nat := indexOf l crackLabels.

(** The password is empty or consists of white space only. *)
Definition isBlank (p : jsstring) : Prop :=
  Forall (fun c => isWhiteSpace c = true) p.

(** The contract of [Math.random()]: every result is in the interval from 0
    (included) to 1 (excluded). *)
Definition inUnitInterval (random : nat -> Q) : Prop :=
  forall k, (0 <= random k)%Q /\ (random k < 1)%Q.

(** * Verification *)

(** ** Strings: equality and substring tests decide what they should *)

Lemma jsstring_eqb_eq (s t : jsstring) : jsstring_eqb s t = true <-> s = t.
Proof.
  revert t; induction s as [|a s IH]; intros [|b t]; simpl;
    try (split; [discriminate | congruence]); try tauto.
  rewrite andb_true_iff, Z.eqb_eq, IH. split.
  - intros [-> ->]; reflexivity.
  - intros E; inversion E; auto.
Qed.

Lemma arrayIncludes_In (arr : list jsstring) (s : jsstring) :
  arrayIncludes arr s = true <-> In s arr.
Proof.
  unfold arrayIncludes. rewrite existsb_exists. split.
  - intros (t & Ht & E). apply jsstring_eqb_eq in E. subst; assumption.
  - intros Hs. exists s. split; [assumption | apply jsstring_eqb_eq; reflexivity].
Qed.

Lemma startsWith_spec (s t : jsstring) :
  startsWith s t = true <-> exists post, s = t ++ post.
Proof.
  revert s; induction t as [|b t IH]; intros s; simpl.
  - split; [intros _; exists s; reflexivity | reflexivity].
  - destruct s as [|a s].
    + split; [discriminate | intros (post & E); discriminate].
    + rewrite andb_true_iff, Z.eqb_eq, IH. split.
      * intros (-> & post & ->). exists post; reflexivity.
      * intros (post & E). inversion E; subst. split; [reflexivity | eauto].
Qed.

Lemma includes_spec (s t : jsstring) :
  includes s t = true <-> occursIn t s.
Proof.
  unfold occursIn. induction s as [|a s IH].
  - simpl. rewrite orb_false_r, startsWith_spec. split.
    + intros (post & E). exists [], post. exact E.
    + intros (pre & post & E). destruct pre as [|x pre]; [|discriminate].
      exists post. exact E.
  - cbn [includes]. rewrite orb_true_iff, startsWith_spec, IH. split.
    + intros [(post & E) | (pre & post & E)].
      * exists [], post. exact E.
      * exists (a :: pre), post. simpl. rewrite E. reflexivity.
    + intros (pre & post & E). destruct pre as [|x pre].
      * left. exists post. exact E.
      * right. inversion E; subst. exists pre, post. reflexivity.
Qed.

(** ** Range of every rule evaluator *)

Lemma checkLength_values (p : jsstring) :
  In (Rules.checkLength p) [0; 5; 10; 20; 30].
Proof.
  unfold Rules.checkLength.
  repeat match goal with |- context [if ?b then _ else _] => destruct b end;
    simpl; tauto.
Qed.

Lemma checkLength_range (p : jsstring) : 0 <= Rules.checkLength p <= 30.
Proof.
  pose proof (checkLength_values p) as H. simpl in H.
  intuition lia.
Qed.

Lemma hasLowercase_range (p : jsstring) : 0 <= Rules.hasLowercase p <= 10.
Proof. unfold Rules.hasLowercase. destruct (test _ _); lia. Qed.

Lemma hasUppercase_range (p : jsstring) : 0 <= Rules.hasUppercase p <= 10.
Proof. unfold Rules.hasUppercase. destruct (test _ _); lia. Qed.

Lemma hasNumbers_range (p : jsstring) : 0 <= Rules.hasNumbers p <= 10.
Proof. unfold Rules.hasNumbers. destruct (test _ _); lia. Qed.

Lemma hasSpecialChars_range (p : jsstring) :
  0 <= Rules.hasSpecialChars p <= 15.
Proof. unfold Rules.hasSpecialChars. destruct (test _ _); lia. Qed.

Lemma repeatingLoop_ge (rest : jsstring) :
  forall prev repeatCount penalty,
    penalty <= Rules.repeatingLoop prev repeatCount penalty rest.
Proof.
  induction rest as [|c rest IH]; intros prev rc pen; simpl; [lia|].
  destruct (c =? prev).
  - destruct (3 <=? rc + 1).
    + specialize (IH c (rc + 1) (pen + 5)). lia.
    + apply IH.
  - apply IH.
Qed.

Lemma checkRepeatingChars_range (p : jsstring) :
  0 <= Rules.checkRepeatingChars p <= 15.
Proof.
  unfold Rules.checkRepeatingChars.
  destruct (_ <? _)%nat; [lia|].
  destruct p as [|c0 rest]; [lia|].
  pose proof (repeatingLoop_ge rest c0 1 0). lia.
Qed.

Lemma patternPenalty_from_ge (lp : jsstring) (patterns : list jsstring) :
  forall start,
    start <= fold_left
      (fun penalty pattern =>
         if includes lp pattern then penalty + 10 else penalty)
      patterns start.
Proof.
  induction patterns as [|pat patterns IH]; intros start; simpl; [lia|].
  destruct (includes lp pat).
  - specialize (IH (start + 10)). lia.
  - apply IH.
Qed.

Lemma patternPenalty_nonneg (lp : jsstring) (patterns : list jsstring) :
  0 <= Rules.patternPenalty lp patterns.
Proof. apply patternPenalty_from_ge. Qed.

Lemma checkCharacterVariety_range (p : jsstring) :
  0 <= Rules.checkCharacterVariety p <= 10.
Proof.
  unfold Rules.checkCharacterVariety.
  repeat match goal with |- context [if ?b then _ else _] => destruct b end;
    lia.
Qed.

Section Ranges.
Context `{LowerCase}.
Variables weak patterns : list jsstring.

Lemma checkWeakPassword_values (p : jsstring) :
  In (Rules.checkWeakPassword weak p) [0; 15; 20].
Proof.
  unfold Rules.checkWeakPassword.
  destruct (arrayIncludes _ _); [simpl; tauto|].
  destruct (Rules.partialMatch _ _); simpl; tauto.
Qed.

Lemma checkWeakPassword_range (p : jsstring) :
  0 <= Rules.checkWeakPassword weak p <= 20.
Proof.
  pose proof (checkWeakPassword_values p) as Hv. simpl in Hv.
  intuition lia.
Qed.

Lemma checkSequentialChars_range (p : jsstring) :
  0 <= Rules.checkSequentialChars patterns p <= 15.
Proof.
  unfold Rules.checkSequentialChars.
  pose proof (patternPenalty_nonneg (toLowerCase p) patterns).
  destruct (Rules.hasRunOfThree p); lia.
Qed.
End Ranges.

(** ** The score *)

Section Score.
Context `{LowerCase}.

Lemma EN_score_eq (p : jsstring) :
  PasswordAnalysis.score (EN.analyze p) =
  if (List.length p =? 0)%nat then 0
  else clamp (bonuses (EN.runAllValidations p)
              - penalties (EN.runAllValidations p)).
Proof. unfold EN.analyze. destruct (_ =? _)%nat; reflexivity. Qed.

Lemma TR_score_eq (p : jsstring) :
  PasswordAnalysis.score (TR.analyze p) =
  if (List.length p =? 0)%nat then 0
  else clamp (bonuses (Validators.runAllValidations p)
              - penalties (Validators.runAllValidations p)).
Proof. unfold TR.analyze. destruct (_ =? _)%nat; reflexivity. Qed.

Lemma EN_runAllValidations_eq (p : jsstring) :
  EN.runAllValidations p
  = Rules.runAllValidations EN.weakPasswords EN.sequentialPatterns p.
Proof. reflexivity. Qed.

Lemma TR_runAllValidations_eq (p : jsstring) :
  Validators.runAllValidations p
  = Rules.runAllValidations Validators.WEAK_PASSWORDS
      Validators.SEQUENTIAL_PATTERNS p.
Proof. reflexivity. Qed.

Lemma bonuses_range (weak patterns : list jsstring) (p : jsstring) :
  0 <= bonuses (Rules.runAllValidations weak patterns p) <= 85.
Proof.
  unfold bonuses; simpl.
  pose proof (checkLength_range p). pose proof (hasLowercase_range p).
  pose proof (hasUppercase_range p). pose proof (hasNumbers_range p).
  pose proof (hasSpecialChars_range p).
  pose proof (checkCharacterVariety_range p). lia.
Qed.

Lemma penalties_range (weak patterns : list jsstring) (p : jsstring) :
  0 <= penalties (Rules.runAllValidations weak patterns p) <= 50.
Proof.
  unfold penalties; simpl.
  pose proof (checkRepeatingChars_range p).
  pose proof (checkWeakPassword_range weak p).
  pose proof (checkSequentialChars_range patterns p). lia.
Qed.

Lemma bonuses_empty (weak patterns : list jsstring) :
  bonuses (Rules.runAllValidations weak patterns []) = 0.
Proof. reflexivity. Qed.

Lemma clamp_range (x : Z) : 0 <= clamp x <= 100.
Proof. unfold clamp. lia. Qed.

(** The score of either build is the clamped difference of the rule
    outputs, also on the empty password, where the bonuses are all 0. *)
Lemma score_is_clamp (weak patterns : list jsstring) (p : jsstring) :
  (if (List.length p =? 0)%nat then 0
   else clamp (bonuses (Rules.runAllValidations weak patterns p)
               - penalties (Rules.runAllValidations weak patterns p)))
  = clamp (bonuses (Rules.runAllValidations weak patterns p)
           - penalties (Rules.runAllValidations weak patterns p)).
Proof.
  destruct p as [|c p]; [|reflexivity].
  change (List.length [] =? 0)%nat with true. cbv iota.
  rewrite bonuses_empty.
  pose proof (penalties_range weak patterns []). unfold clamp. lia.
Qed.

(** C1. For every password, in both builds, the score is the sum of the
    six bonuses minus the sum of the three penalties, clamped to the
    closed interval from 0 to 100; it is never negative and never above
    100. *)
Theorem C1_score_is_clamped_sum_in_0_100 (p : jsstring) :
  (PasswordAnalysis.score (EN.analyze p)
     = clamp (bonuses (EN.runAllValidations p)
              - penalties (EN.runAllValidations p))
   /\ 0 <= PasswordAnalysis.score (EN.analyze p) <= 100)
  /\
  (PasswordAnalysis.score (TR.analyze p)
     = clamp (bonuses (Validators.runAllValidations p)
              - penalties (Validators.runAllValidations p))
   /\ 0 <= PasswordAnalysis.score (TR.analyze p) <= 100).
Proof.
  split.
  - rewrite EN_score_eq, EN_runAllValidations_eq.
    rewrite (score_is_clamp EN.weakPasswords EN.sequentialPatterns p).
    split; [reflexivity | apply clamp_range].
  - rewrite TR_score_eq, TR_runAllValidations_eq.
    rewrite (score_is_clamp Validators.WEAK_PASSWORDS
               Validators.SEQUENTIAL_PATTERNS p).
    split; [reflexivity | apply clamp_range].
Qed.

Lemma score_le_85 (weak patterns : list jsstring) (p : jsstring) :
  clamp (bonuses (Rules.runAllValidations weak patterns p)
         - penalties (Rules.runAllValidations weak patterns p)) <= 85.
Proof.
  pose proof (bonuses_range weak patterns p).
  pose proof (penalties_range weak patterns p).
  unfold clamp. lia.
Qed.

(** C10. For every password, in both builds, the score is at most 85: the
    bonuses add up to at most 30 + 10 + 10 + 10 + 15 + 10 and the penalties
    are never negative, so no score from 86 to 100 is ever returned. *)
Theorem C10_score_at_most_85 (p : jsstring) :
  PasswordAnalysis.score (EN.analyze p) <= 85
  /\ PasswordAnalysis.score (TR.analyze p) <= 85.
Proof.
  split.
  - rewrite EN_score_eq, EN_runAllValidations_eq.
    rewrite (score_is_clamp EN.weakPasswords EN.sequentialPatterns p).
    apply score_le_85.
  - rewrite TR_score_eq, TR_runAllValidations_eq.
    rewrite (score_is_clamp Validators.WEAK_PASSWORDS
               Validators.SEQUENTIAL_PATTERNS p).
    apply score_le_85.
Qed.

(** C2. On the empty password both builds return their fixed empty
    analysis, whatever the rule evaluators (and the engine's
    lower-casing) would compute: score 0, level EMPTY, the eight criteria
    false, one feedback message and one suggestion. *)
Theorem C2_empty_password_fixed_result :
  (EN.analyze [] = EN.getEmptyAnalysis
   /\ PasswordAnalysis.score (EN.analyze []) = 0
   /\ PasswordAnalysis.level (EN.analyze []) = EMPTY
   /\ Criteria.values (PasswordAnalysis.criteria (EN.analyze []))
        = repeat false 8
   /\ PasswordAnalysis.feedback (EN.analyze [])
        = ["Please enter a password to analyze"%string]
   /\ PasswordAnalysis.suggestions (EN.analyze [])
        = ["Password should be at least 8 characters long"%string])
  /\
  (TR.analyze [] = TR.getEmptyAnalysis
   /\ PasswordAnalysis.score (TR.analyze []) = 0
   /\ PasswordAnalysis.level (TR.analyze []) = EMPTY
   /\ Criteria.values (PasswordAnalysis.criteria (TR.analyze []))
        = repeat false 8
   /\ PasswordAnalysis.feedback (TR.analyze [])
        = ["Lütfen bir parola girin"%string]
   /\ PasswordAnalysis.suggestions (TR.analyze [])
        = ["Parola uzunluğu en az 8 karakter olmalıdır"%string]).
Proof. repeat split. Qed.

End Score.

(** ** The level *)

Lemma EN_level_bands (s : Z) :
  0 <= s ->
  (EN.determineStrengthLevel s = EMPTY <-> s = 0)
  /\ (EN.determineStrengthLevel s = VERY_WEAK <-> 1 <= s < 20)
  /\ (EN.determineStrengthLevel s = WEAK <-> 20 <= s < 40)
  /\ (EN.determineStrengthLevel s = MEDIUM <-> 40 <= s < 60)
  /\ (EN.determineStrengthLevel s = STRONG <-> 60 <= s < 80)
  /\ (EN.determineStrengthLevel s = VERY_STRONG <-> 80 <= s).
Proof.
  intros Hs. unfold EN.determineStrengthLevel.
  destruct (Z.eqb_spec s 0); [repeat split; intros; (discriminate || lia)|].
  repeat match goal with
         | |- context [?a <? ?b] => destruct (Z.ltb_spec a b)
         end;
    repeat split; intros; (discriminate || lia).
Qed.

Lemma TR_level_bands (s : Z) :
  0 <= s ->
  (TR.determineStrengthLevel s = EMPTY <-> s = 0)
  /\ (TR.determineStrengthLevel s = VERY_WEAK <-> 1 <= s < 30)
  /\ (TR.determineStrengthLevel s = WEAK <-> 30 <= s < 50)
  /\ (TR.determineStrengthLevel s = MEDIUM <-> 50 <= s < 70)
  /\ (TR.determineStrengthLevel s = STRONG <-> 70 <= s < 85)
  /\ (TR.determineStrengthLevel s = VERY_STRONG <-> 85 <= s).
Proof.
  intros Hs. unfold TR.determineStrengthLevel.
  destruct (Z.eqb_spec s 0); [repeat split; intros; (discriminate || lia)|].
  repeat match goal with
         | |- context [?a <? ?b] => destruct (Z.ltb_spec a b)
         end;
    repeat split; intros; (discriminate || lia).
Qed.

Lemma EN_level_monotone (s1 s2 : Z) :
  0 <= s1 <= s2 ->
  (levelRank (EN.determineStrengthLevel s1)
   <= levelRank (EN.determineStrengthLevel s2))%nat.
Proof.
  intros Hs. unfold EN.determineStrengthLevel.
  destruct (Z.eqb_spec s1 0); [simpl; lia|].
  destruct (Z.eqb_spec s2 0); [lia|].
  repeat match goal with
         | |- context [?a <? ?b] => destruct (Z.ltb_spec a b)
         end; simpl; lia.
Qed.

Lemma TR_level_monotone (s1 s2 : Z) :
  0 <= s1 <= s2 ->
  (levelRank (TR.determineStrengthLevel s1)
   <= levelRank (TR.determineStrengthLevel s2))%nat.
Proof.
  intros Hs. unfold TR.determineStrengthLevel.
  destruct (Z.eqb_spec s1 0); [simpl; lia|].
  destruct (Z.eqb_spec s2 0); [lia|].
  repeat match goal with
         | |- context [?a <? ?b] => destruct (Z.ltb_spec a b)
         end; simpl; lia.
Qed.

Section Level.
Context `{LowerCase}.

Lemma EN_level_of_score (p : jsstring) :
  PasswordAnalysis.level (EN.analyze p)
  = EN.determineStrengthLevel (PasswordAnalysis.score (EN.analyze p)).
Proof. unfold EN.analyze. destruct (_ =? _)%nat; reflexivity. Qed.

Lemma TR_level_of_score (p : jsstring) :
  PasswordAnalysis.level (TR.analyze p)
  = TR.determineStrengthLevel (PasswordAnalysis.score (TR.analyze p)).
Proof. unfold TR.analyze. destruct (_ =? _)%nat; reflexivity. Qed.

(** C4. In both builds the level of an analysis is [determineStrengthLevel]
    of its score, and on scores from 0 to 100 that function is a
    non-decreasing step function: a larger score never gets a lower level in
    the order EMPTY < VERY_WEAK < WEAK < MEDIUM < STRONG < VERY_STRONG, and
    each level is returned exactly on its own half-open band, the six bands
    following one another without a gap (0, 1-19, 20-39, 40-59, 60-79, 80
    and above in the English build; 0, 1-29, 30-49, 50-69, 70-84, 85 and
    above in the Turkish build). *)
Theorem C4_level_monotone_step_function (p : jsstring) (s1 s2 : Z) :
  0 <= s1 -> s1 <= s2 -> s2 <= 100 ->
  (PasswordAnalysis.level (EN.analyze p)
     = EN.determineStrengthLevel (PasswordAnalysis.score (EN.analyze p))
   /\ (levelRank (EN.determineStrengthLevel s1)
       <= levelRank (EN.determineStrengthLevel s2))%nat
   /\ (EN.determineStrengthLevel s1 = EMPTY <-> s1 = 0)
   /\ (EN.determineStrengthLevel s1 = VERY_WEAK <-> 1 <= s1 < 20)
   /\ (EN.determineStrengthLevel s1 = WEAK <-> 20 <= s1 < 40)
   /\ (EN.determineStrengthLevel s1 = MEDIUM <-> 40 <= s1 < 60)
   /\ (EN.determineStrengthLevel s1 = STRONG <-> 60 <= s1 < 80)
   /\ (EN.determineStrengthLevel s1 = VERY_STRONG <-> 80 <= s1))
  /\
  (PasswordAnalysis.level (TR.analyze p)
     = TR.determineStrengthLevel (PasswordAnalysis.score (TR.analyze p))
   /\ (levelRank (TR.determineStrengthLevel s1)
       <= levelRank (TR.determineStrengthLevel s2))%nat
   /\ (TR.determineStrengthLevel s1 = EMPTY <-> s1 = 0)
   /\ (TR.determineStrengthLevel s1 = VERY_WEAK <-> 1 <= s1 < 30)
   /\ (TR.determineStrengthLevel s1 = WEAK <-> 30 <= s1 < 50)
   /\ (TR.determineStrengthLevel s1 = MEDIUM <-> 50 <= s1 < 70)
   /\ (TR.determineStrengthLevel s1 = STRONG <-> 70 <= s1 < 85)
   /\ (TR.determineStrengthLevel s1 = VERY_STRONG <-> 85 <= s1)).
Proof.
  intros H0 H12 H100. split.
  - split; [apply EN_level_of_score|].
    split; [apply EN_level_monotone; lia|].
    apply EN_level_bands; assumption.
  - split; [apply TR_level_of_score|].
    split; [apply TR_level_monotone; lia|].
    apply TR_level_bands; assumption.
Qed.

End Level.

Lemma C4_level_witness :
  (levelRank (EN.determineStrengthLevel 19)
   <= levelRank (EN.determineStrengthLevel 20))%nat
  /\ (levelRank (TR.determineStrengthLevel 19)
      <= levelRank (TR.determineStrengthLevel 20))%nat.
Proof.
  pose proof (@C4_level_monotone_step_function asciiLower (str "abc") 19 20
                ltac:(lia) ltac:(lia) ltac:(lia)) as W.
  split; [exact (proj1 (proj2 (proj1 W))) | exact (proj1 (proj2 (proj2 W)))].
Defined.

(** ** A non-empty password at level EMPTY *)

(** C9. The level EMPTY is not reserved for the empty password: the
    five-character password 12345 earns 5 for its length and 10 for its
    digits, loses 20 as a listed weak password and 15 (the cap) for its
    sequences, so its score is clamped to 0 and its level is EMPTY, in both
    builds. *)
Theorem C9_nonempty_password_at_level_EMPTY :
  exists p : jsstring,
    p <> []
    /\ bonuses (@EN.runAllValidations asciiLower p) = 15
    /\ ValidationResults.weakPasswordPenalty
         (@EN.runAllValidations asciiLower p) = 20
    /\ ValidationResults.sequentialCharsPenalty
         (@EN.runAllValidations asciiLower p) = 15
    /\ PasswordAnalysis.score (@EN.analyze asciiLower p) = 0
    /\ PasswordAnalysis.level (@EN.analyze asciiLower p) = EMPTY
    /\ PasswordAnalysis.score (@TR.analyze asciiLower p) = 0
    /\ PasswordAnalysis.level (@TR.analyze asciiLower p) = EMPTY.
Proof.
  exists (str "12345"). split; [discriminate|].
  repeat split; vm_compute; reflexivity.
Qed.

(** ** The special-character rule *)

Lemma isListedSpecial_In (c : Z) :
  isListedSpecial c = true <-> In c specialClass.
Proof.
  unfold isListedSpecial. rewrite existsb_exists. split.
  - intros (x & Hx & E). apply Z.eqb_eq in E. subst; assumption.
  - intros Hc. exists c. split; [assumption | apply Z.eqb_refl].
Qed.

Lemma test_Exists (cls : Z -> bool) (p : jsstring) :
  test cls p = true <-> Exists (fun c => cls c = true) p.
Proof.
  unfold test. rewrite existsb_exists, List.Exists_exists. reflexivity.
Qed.

Lemma hasSpecialChars_15 (p : jsstring) :
  Rules.hasSpecialChars p = 15 <-> Exists (fun c => In c specialClass) p.
Proof.
  unfold Rules.hasSpecialChars.
  assert (E : test isListedSpecial p = true
              <-> Exists (fun c => In c specialClass) p).
  { rewrite test_Exists. split; apply List.Exists_impl; intros c;
      apply isListedSpecial_In. }
  destruct (test isListedSpecial p).
  - split; [intros _; apply E; reflexivity | reflexivity].
  - split; [discriminate | intros Hx; apply E in Hx; discriminate].
Qed.

Lemma hasSpecialChars_0 (p : jsstring) :
  Rules.hasSpecialChars p = 0 <-> ~ Exists (fun c => In c specialClass) p.
Proof.
  rewrite <- hasSpecialChars_15. unfold Rules.hasSpecialChars.
  destruct (test _ _); split; try discriminate; try reflexivity.
  intros Hn; exfalso; apply Hn; reflexivity.
Qed.

Lemma specialClass_not_alnum :
  Forall (fun c => isAlnum c = false) specialClass.
Proof. repeat constructor. Qed.

(** C6, as the code has it.  In both builds the special-character evaluator
    returns 15 exactly when the password has a character of the thirty
    punctuation marks its regular expression lists, and 0 otherwise; none of
    the thirty is alphanumeric, so a result of 15 still implies a character
    outside a-z, A-Z, 0-9. *)
Theorem C6_special_chars_listed_class (p : jsstring) :
  EN.hasSpecialChars p = Validators.hasSpecialChars p
  /\ (Validators.hasSpecialChars p = 15
      <-> Exists (fun c => In c specialClass) p)
  /\ (Validators.hasSpecialChars p = 0
      <-> ~ Exists (fun c => In c specialClass) p)
  /\ List.length specialClass = 30%nat
  /\ Forall (fun c => isAlnum c = false) specialClass
  /\ (Validators.hasSpecialChars p = 15
      -> Exists (fun c => isAlnum c = false) p).
Proof.
  split; [reflexivity|].
  split; [apply hasSpecialChars_15|].
  split; [apply hasSpecialChars_0|].
  split; [reflexivity|].
  split; [apply specialClass_not_alnum|].
  intros H15. apply hasSpecialChars_15 in H15.
  revert H15. apply List.Exists_impl. intros c Hc.
  pose proof specialClass_not_alnum as Hall.
  rewrite List.Forall_forall in Hall. apply Hall; assumption.
Qed.

(** A single space is outside a-z, A-Z, 0-9, yet the evaluator returns 0
    for it. *)
Lemma C6_counterexample_space :
  Exists (fun c => isAlnum c = false) (str " ")
  /\ Validators.hasSpecialChars (str " ") = 0
  /\ EN.hasSpecialChars (str " ") = 0
  /\ ~ (Validators.hasSpecialChars (str " ") = 15
        <-> Exists (fun c => isAlnum c = false) (str " ")).
Proof.
  assert (Hsp : Exists (fun c => isAlnum c = false) (str " ")).
  { constructor. reflexivity. }
  split; [exact Hsp|].
  split; [reflexivity|].
  split; [reflexivity|].
  intros [_ Hback]. specialize (Hback Hsp). discriminate.
Qed.

(** ** The criteria *)

Lemma checkLength_ge_20 (p : jsstring) :
  20 <= Rules.checkLength p <-> (8 <= List.length p)%nat.
Proof.
  unfold Rules.checkLength.
  destruct (Nat.eqb_spec (List.length p) 0);
    repeat match goal with
           | |- context [(?a <? ?b)%nat] => destruct (Nat.ltb_spec a b)
           end; lia.
Qed.

Lemma checkLength_eq_30 (p : jsstring) :
  Rules.checkLength p = 30 <-> (12 <= List.length p)%nat.
Proof.
  unfold Rules.checkLength.
  destruct (Nat.eqb_spec (List.length p) 0);
    repeat match goal with
           | |- context [(?a <? ?b)%nat] => destruct (Nat.ltb_spec a b)
           end; lia.
Qed.

Section CriteriaFacts.
Context `{LowerCase}.

Lemma EN_criteria_eq (p : jsstring) :
  p <> [] ->
  PasswordAnalysis.criteria (EN.analyze p) =
  {| Criteria.length := 20 <=? EN.checkLength p;
     Criteria.hasLowercase := 0 <? EN.hasLowercase p;
     Criteria.hasUppercase := 0 <? EN.hasUppercase p;
     Criteria.hasNumbers := 0 <? EN.hasNumbers p;
     Criteria.hasSpecialChars := 0 <? EN.hasSpecialChars p;
     Criteria.noRepeatingChars := EN.checkRepeatingChars p =? 0;
     Criteria.notWeakPassword := EN.checkWeakPassword p =? 0;
     Criteria.noSequentialChars := EN.checkSequentialChars p =? 0 |}.
Proof. destruct p; [congruence | reflexivity]. Qed.

Lemma TR_criteria_eq (p : jsstring) :
  p <> [] ->
  PasswordAnalysis.criteria (TR.analyze p) =
  {| Criteria.length := 20 <=? Validators.checkLength p;
     Criteria.hasLowercase := 0 <? Validators.hasLowercase p;
     Criteria.hasUppercase := 0 <? Validators.hasUppercase p;
     Criteria.hasNumbers := 0 <? Validators.hasNumbers p;
     Criteria.hasSpecialChars := 0 <? Validators.hasSpecialChars p;
     Criteria.noRepeatingChars := Validators.checkRepeatingChars p =? 0;
     Criteria.notWeakPassword := Validators.checkWeakPassword p =? 0;
     Criteria.noSequentialChars := Validators.checkSequentialChars p =? 0 |}.
Proof. destruct p; [congruence | reflexivity]. Qed.

(** C3, as the code has it.  For a non-empty password, in both builds, the
    criteria are read off the raw rule outputs: [length] is true exactly when
    the length contribution is at least 20, that is from 8 characters on;
    the four presence criteria are true exactly when their contribution is
    positive; the three penalty criteria are true exactly when their penalty
    is 0. *)
Theorem C3_criteria_from_raw_outputs (p : jsstring) :
  p <> [] ->
  (let c := PasswordAnalysis.criteria (EN.analyze p) in
   (Criteria.length c = true <-> 20 <= EN.checkLength p)
   /\ (Criteria.length c = true <-> (8 <= List.length p)%nat)
   /\ (Criteria.hasLowercase c = true <-> 0 < EN.hasLowercase p)
   /\ (Criteria.hasUppercase c = true <-> 0 < EN.hasUppercase p)
   /\ (Criteria.hasNumbers c = true <-> 0 < EN.hasNumbers p)
   /\ (Criteria.hasSpecialChars c = true <-> 0 < EN.hasSpecialChars p)
   /\ (Criteria.noRepeatingChars c = true <-> EN.checkRepeatingChars p = 0)
   /\ (Criteria.notWeakPassword c = true <-> EN.checkWeakPassword p = 0)
   /\ (Criteria.noSequentialChars c = true
       <-> EN.checkSequentialChars p = 0))
  /\
  (let c := PasswordAnalysis.criteria (TR.analyze p) in
   (Criteria.length c = true <-> 20 <= Validators.checkLength p)
   /\ (Criteria.length c = true <-> (8 <= List.length p)%nat)
   /\ (Criteria.hasLowercase c = true <-> 0 < Validators.hasLowercase p)
   /\ (Criteria.hasUppercase c = true <-> 0 < Validators.hasUppercase p)
   /\ (Criteria.hasNumbers c = true <-> 0 < Validators.hasNumbers p)
   /\ (Criteria.hasSpecialChars c = true
       <-> 0 < Validators.hasSpecialChars p)
   /\ (Criteria.noRepeatingChars c = true
       <-> Validators.checkRepeatingChars p = 0)
   /\ (Criteria.notWeakPassword c = true
       <-> Validators.checkWeakPassword p = 0)
   /\ (Criteria.noSequentialChars c = true
       <-> Validators.checkSequentialChars p = 0)).
Proof.
  intros Hne. cbv zeta.
  rewrite (EN_criteria_eq p Hne), (TR_criteria_eq p Hne).
  cbn [Criteria.length Criteria.hasLowercase Criteria.hasUppercase
       Criteria.hasNumbers Criteria.hasSpecialChars Criteria.noRepeatingChars
       Criteria.notWeakPassword Criteria.noSequentialChars].
  pose proof (checkLength_ge_20 p) as HL.
  change Rules.checkLength with EN.checkLength in HL.
  rewrite !Z.leb_le, !Z.ltb_lt, !Z.eqb_eq.
  repeat split; try apply HL; intros Hx; exact Hx.
Qed.

End CriteriaFacts.

Lemma C3_criteria_witness :
  Criteria.length
    (PasswordAnalysis.criteria (@EN.analyze asciiLower (str "abcdefgh")))
  = true <-> 20 <= EN.checkLength (str "abcdefgh").
Proof.
  pose proof (@C3_criteria_from_raw_outputs asciiLower (str "abcdefgh")
                ltac:(discriminate)) as W.
  exact (proj1 (proj1 W)).
Defined.

(** The eight-character password abcdefgh sits in the second-highest length
    band (contribution 20, not 30; fewer than 12 characters), and its
    [length] criterion is true in both builds. *)
Lemma C3_counterexample_eight_chars :
  Criteria.length
    (PasswordAnalysis.criteria (@EN.analyze asciiLower (str "abcdefgh")))
  = true
  /\ Criteria.length
       (PasswordAnalysis.criteria (@TR.analyze asciiLower (str "abcdefgh")))
     = true
  /\ EN.checkLength (str "abcdefgh") = 20
  /\ EN.checkLength (str "abcdefgh") <> 30
  /\ ~ (12 <= List.length (str "abcdefgh"))%nat.
Proof.
  split; [reflexivity|]. split; [reflexivity|]. split; [reflexivity|].
  split; [discriminate|]. simpl. lia.
Qed.

(** ** The weak-password rule *)

Lemma partialMatch_spec (lp : jsstring) (weak : list jsstring) :
  Rules.partialMatch lp weak = true <-> containsListedWeak weak lp.
Proof.
  unfold containsListedWeak.
  induction weak as [|w weak IH]; cbn [Rules.partialMatch In].
  - split; [discriminate | intros (w & [] & _)].
  - destruct (includes lp w && (4 <=? List.length w)%nat) eqn:E.
    + split; [intros _ | reflexivity].
      apply andb_true_iff in E. destruct E as [Ei El].
      exists w. split; [left; reflexivity|].
      split; [apply Nat.leb_le; exact El | apply includes_spec; exact Ei].
    + rewrite IH. split.
      * intros (w' & Hin & Hl & Ho). exists w'. tauto.
      * intros (w' & [<- | Hin] & Hl & Ho).
        -- apply includes_spec in Ho. apply Nat.leb_le in Hl.
           rewrite Ho, Hl in E. discriminate.
        -- exists w'. tauto.
Qed.

Section WeakRule.
Context `{LowerCase}.
Variable weak : list jsstring.

Lemma checkWeakPassword_exact (p : jsstring) :
  In (toLowerCase p) weak -> Rules.checkWeakPassword weak p = 20.
Proof.
  intros Hin. unfold Rules.checkWeakPassword.
  apply arrayIncludes_In in Hin. rewrite Hin. reflexivity.
Qed.

Lemma checkWeakPassword_partial (p : jsstring) :
  ~ In (toLowerCase p) weak ->
  containsListedWeak weak (toLowerCase p) ->
  Rules.checkWeakPassword weak p = 15.
Proof.
  intros Hnin Hc. unfold Rules.checkWeakPassword.
  destruct (arrayIncludes weak (toLowerCase p)) eqn:E.
  - apply arrayIncludes_In in E. contradiction.
  - apply partialMatch_spec in Hc. rewrite Hc. reflexivity.
Qed.

Lemma checkWeakPassword_clean (p : jsstring) :
  ~ In (toLowerCase p) weak ->
  ~ containsListedWeak weak (toLowerCase p) ->
  Rules.checkWeakPassword weak p = 0.
Proof.
  intros Hnin Hnc. unfold Rules.checkWeakPassword.
  destruct (arrayIncludes weak (toLowerCase p)) eqn:E.
  - apply arrayIncludes_In in E. contradiction.
  - destruct (Rules.partialMatch (toLowerCase p) weak) eqn:E'.
    + apply partialMatch_spec in E'. contradiction.
    + reflexivity.
Qed.

Lemma checkWeakPassword_zero_iff (p : jsstring) :
  Rules.checkWeakPassword weak p = 0
  <-> ~ (In (toLowerCase p) weak
         \/ containsListedWeak weak (toLowerCase p)).
Proof.
  split.
  - intros Hz [Hin | Hc].
    + rewrite (checkWeakPassword_exact p Hin) in Hz. discriminate.
    + destruct (arrayIncludes weak (toLowerCase p)) eqn:E.
      * apply arrayIncludes_In in E.
        rewrite (checkWeakPassword_exact p E) in Hz. discriminate.
      * assert (Hnin : ~ In (toLowerCase p) weak).
        { intros Hin. apply arrayIncludes_In in Hin. congruence. }
        rewrite (checkWeakPassword_partial p Hnin Hc) in Hz. discriminate.
  - intros Hn. apply checkWeakPassword_clean; tauto.
Qed.

End WeakRule.

Section WeakCriterion.
Context `{LowerCase}.

(** C5, as the code has it.  For a non-empty password, in both builds and
    with the list of that build: if the lower-cased password is an entry of
    the list the weak penalty is 20; if it is not, but a listed entry of
    length at least 4 occurs in it, the penalty is 15; otherwise the penalty
    is 0.  The criterion [notWeakPassword] is false exactly in the first two
    cases.  (For the empty password the criterion is false as well, by the
    fixed empty analysis.) *)
Theorem C5_weak_password_criterion (p : jsstring) :
  p <> [] ->
  ((In (toLowerCase p) EN.weakPasswords -> EN.checkWeakPassword p = 20)
   /\ (~ In (toLowerCase p) EN.weakPasswords ->
       containsListedWeak EN.weakPasswords (toLowerCase p) ->
       EN.checkWeakPassword p = 15)
   /\ (~ In (toLowerCase p) EN.weakPasswords ->
       ~ containsListedWeak EN.weakPasswords (toLowerCase p) ->
       EN.checkWeakPassword p = 0)
   /\ (Criteria.notWeakPassword (PasswordAnalysis.criteria (EN.analyze p))
       = false
       <-> In (toLowerCase p) EN.weakPasswords
           \/ containsListedWeak EN.weakPasswords (toLowerCase p))
   /\ Criteria.notWeakPassword (PasswordAnalysis.criteria (EN.analyze []))
      = false)
  /\
  ((In (toLowerCase p) Validators.WEAK_PASSWORDS ->
    Validators.checkWeakPassword p = 20)
   /\ (~ In (toLowerCase p) Validators.WEAK_PASSWORDS ->
       containsListedWeak Validators.WEAK_PASSWORDS (toLowerCase p) ->
       Validators.checkWeakPassword p = 15)
   /\ (~ In (toLowerCase p) Validators.WEAK_PASSWORDS ->
       ~ containsListedWeak Validators.WEAK_PASSWORDS (toLowerCase p) ->
       Validators.checkWeakPassword p = 0)
   /\ (Criteria.notWeakPassword (PasswordAnalysis.criteria (TR.analyze p))
       = false
       <-> In (toLowerCase p) Validators.WEAK_PASSWORDS
           \/ containsListedWeak Validators.WEAK_PASSWORDS (toLowerCase p))
   /\ Criteria.notWeakPassword (PasswordAnalysis.criteria (TR.analyze []))
      = false).
Proof.
  intros Hne. split.
  - split; [apply checkWeakPassword_exact|].
    split; [apply checkWeakPassword_partial|].
    split; [apply checkWeakPassword_clean|].
    split; [|reflexivity].
    rewrite (EN_criteria_eq p Hne). cbn [Criteria.notWeakPassword].
    pose proof (checkWeakPassword_zero_iff EN.weakPasswords p) as Hz.
    change (Rules.checkWeakPassword EN.weakPasswords p)
      with (EN.checkWeakPassword p) in Hz.
    destruct (Z.eqb_spec (EN.checkWeakPassword p) 0) as [E | E].
    + split; [discriminate | intros Hw; apply Hz in E; contradiction].
    + split; [intros _ | reflexivity].
      destruct (arrayIncludes EN.weakPasswords (toLowerCase p)) eqn:Ea.
      * left. apply arrayIncludes_In. exact Ea.
      * right. apply partialMatch_spec.
        destruct (Rules.partialMatch (toLowerCase p) EN.weakPasswords)
          eqn:Ep; [reflexivity|].
        exfalso. apply E. unfold EN.checkWeakPassword, Rules.checkWeakPassword.
        rewrite Ea, Ep. reflexivity.
  - split; [apply checkWeakPassword_exact|].
    split; [apply checkWeakPassword_partial|].
    split; [apply checkWeakPassword_clean|].
    split; [|reflexivity].
    rewrite (TR_criteria_eq p Hne). cbn [Criteria.notWeakPassword].
    pose proof (checkWeakPassword_zero_iff Validators.WEAK_PASSWORDS p) as Hz.
    change (Rules.checkWeakPassword Validators.WEAK_PASSWORDS p)
      with (Validators.checkWeakPassword p) in Hz.
    destruct (Z.eqb_spec (Validators.checkWeakPassword p) 0) as [E | E].
    + split; [discriminate | intros Hw; apply Hz in E; contradiction].
    + split; [intros _ | reflexivity].
      destruct (arrayIncludes Validators.WEAK_PASSWORDS (toLowerCase p))
        eqn:Ea.
      * left. apply arrayIncludes_In. exact Ea.
      * right. apply partialMatch_spec.
        destruct (Rules.partialMatch (toLowerCase p)
                    Validators.WEAK_PASSWORDS) eqn:Ep; [reflexivity|].
        exfalso. apply E.
        unfold Validators.checkWeakPassword, Rules.checkWeakPassword.
        rewrite Ea, Ep. reflexivity.
Qed.

End WeakCriterion.

Lemma C5_weak_password_witness :
  @EN.checkWeakPassword asciiLower (str "PassWord") = 20
  /\ @Validators.checkWeakPassword asciiLower (str "PassWord") = 20.
Proof.
  pose proof (@C5_weak_password_criterion asciiLower (str "PassWord")
                ltac:(discriminate)) as W.
  split.
  - apply (proj1 (proj1 W)). vm_compute. tauto.
  - apply (proj1 (proj2 W)). vm_compute. tauto.
Defined.

Lemma occursIn_nil (w : jsstring) : occursIn w [] -> w = [].
Proof.
  intros (pre & post & E). symmetry in E.
  apply app_eq_nil in E. destruct E as [_ E].
  apply app_eq_nil in E. tauto.
Qed.

(** The empty password is no listed weak password and contains none, and its
    weak penalty would be 0, yet its criterion [notWeakPassword] is false. *)
Lemma C5_counterexample_empty_password :
  ~ In (@toLowerCase asciiLower []) Validators.WEAK_PASSWORDS
  /\ ~ containsListedWeak Validators.WEAK_PASSWORDS (@toLowerCase asciiLower [])
  /\ @Validators.checkWeakPassword asciiLower [] = 0
  /\ Criteria.notWeakPassword
       (PasswordAnalysis.criteria (@TR.analyze asciiLower [])) = false
  /\ Criteria.notWeakPassword
       (PasswordAnalysis.criteria (@EN.analyze asciiLower [])) = false.
Proof.
  split.
  { intros Hin. apply arrayIncludes_In in Hin. vm_compute in Hin.
    discriminate. }
  split.
  { intros (w & _ & Hl & Ho). apply occursIn_nil in Ho. subst w.
    simpl in Hl. lia. }
  repeat split.
Qed.

(** ** The two builds compared *)

Lemma partialMatch_app (lp : jsstring) (a b : list jsstring) :
  Rules.partialMatch lp (a ++ b)
  = Rules.partialMatch lp a || Rules.partialMatch lp b.
Proof.
  induction a as [|w a IH]; [reflexivity|].
  cbn [app Rules.partialMatch].
  destruct (includes lp w && (4 <=? List.length w)%nat);
    [reflexivity | exact IH].
Qed.

Lemma patternPenalty_app_ge (lp : jsstring) (a b : list jsstring) :
  Rules.patternPenalty lp a <= Rules.patternPenalty lp (a ++ b).
Proof.
  unfold Rules.patternPenalty. rewrite fold_left_app.
  apply patternPenalty_from_ge.
Qed.

Section Builds.
Context `{LowerCase}.

Lemma checkWeakPassword_app_ge (a b : list jsstring) (p : jsstring) :
  Rules.checkWeakPassword a p <= Rules.checkWeakPassword (a ++ b) p.
Proof.
  unfold Rules.checkWeakPassword, arrayIncludes.
  rewrite existsb_app, partialMatch_app.
  destruct (existsb _ a); [reflexivity|].
  destruct (existsb _ b); simpl;
    destruct (Rules.partialMatch _ a); simpl; try lia;
    destruct (Rules.partialMatch _ b); lia.
Qed.

Lemma checkSequentialChars_app_ge (a b : list jsstring) (p : jsstring) :
  Rules.checkSequentialChars a p <= Rules.checkSequentialChars (a ++ b) p.
Proof.
  unfold Rules.checkSequentialChars.
  pose proof (patternPenalty_app_ge (toLowerCase p) a b).
  destruct (Rules.hasRunOfThree p); lia.
Qed.

Lemma weak_lists_extend :
  Validators.WEAK_PASSWORDS
  = EN.weakPasswords
    ++ map str ["charlie"; "aa123456"; "donald"; "password123"; "qwerty123";
                "admin123"; "pass"; "test"; "guest"; "temp"; "user"]%string.
Proof. reflexivity. Qed.

Lemma pattern_lists_extend :
  Validators.SEQUENTIAL_PATTERNS
  = EN.sequentialPatterns
    ++ map str ["pqrstu"; "qrstuv"; "rstuvw"; "stuvwx"; "tuvwxy";
                "uvwxyz"]%string.
Proof. reflexivity. Qed.

Lemma weak_penalty_EN_le_TR (p : jsstring) :
  EN.checkWeakPassword p <= Validators.checkWeakPassword p.
Proof.
  unfold EN.checkWeakPassword, Validators.checkWeakPassword.
  rewrite weak_lists_extend. apply checkWeakPassword_app_ge.
Qed.

Lemma sequential_penalty_EN_le_TR (p : jsstring) :
  EN.checkSequentialChars p <= Validators.checkSequentialChars p.
Proof.
  unfold EN.checkSequentialChars, Validators.checkSequentialChars.
  rewrite pattern_lists_extend. apply checkSequentialChars_app_ge.
Qed.

(** C7, as the code has it.  The rule evaluators of the two builds have the
    same bodies but do not read the same lists: the weak-password list of
    the Turkish build is the English list followed by eleven more entries,
    and its sequential-pattern list is the English list followed by six
    more.  So, for every password, the seven outputs that read no list
    (length, lowercase, uppercase, digits, special characters, repetition,
    variety) and the six criteria drawn from them agree, while the weak and
    the sequential penalty of the English build are at most those of the
    Turkish build: when the Turkish build reports [notWeakPassword] or
    [noSequentialChars] as met, so does the English build. *)
Theorem C7_builds_differ_in_their_lists (p : jsstring) :
  Validators.WEAK_PASSWORDS
  = EN.weakPasswords
    ++ map str ["charlie"; "aa123456"; "donald"; "password123"; "qwerty123";
                "admin123"; "pass"; "test"; "guest"; "temp"; "user"]%string
  /\ Validators.SEQUENTIAL_PATTERNS
     = EN.sequentialPatterns
       ++ map str ["pqrstu"; "qrstuv"; "rstuvw"; "stuvwx"; "tuvwxy";
                   "uvwxyz"]%string
  /\ (let e := EN.runAllValidations p in
      let t := Validators.runAllValidations p in
      ValidationResults.length e = ValidationResults.length t
      /\ ValidationResults.hasLowercase e = ValidationResults.hasLowercase t
      /\ ValidationResults.hasUppercase e = ValidationResults.hasUppercase t
      /\ ValidationResults.hasNumbers e = ValidationResults.hasNumbers t
      /\ ValidationResults.hasSpecialChars e
         = ValidationResults.hasSpecialChars t
      /\ ValidationResults.repeatingCharsPenalty e
         = ValidationResults.repeatingCharsPenalty t
      /\ ValidationResults.varietyBonus e = ValidationResults.varietyBonus t
      /\ ValidationResults.weakPasswordPenalty e
         <= ValidationResults.weakPasswordPenalty t
      /\ ValidationResults.sequentialCharsPenalty e
         <= ValidationResults.sequentialCharsPenalty t)
  /\ (let e := PasswordAnalysis.criteria (EN.analyze p) in
      let t := PasswordAnalysis.criteria (TR.analyze p) in
      Criteria.length e = Criteria.length t
      /\ Criteria.hasLowercase e = Criteria.hasLowercase t
      /\ Criteria.hasUppercase e = Criteria.hasUppercase t
      /\ Criteria.hasNumbers e = Criteria.hasNumbers t
      /\ Criteria.hasSpecialChars e = Criteria.hasSpecialChars t
      /\ Criteria.noRepeatingChars e = Criteria.noRepeatingChars t
      /\ (Criteria.notWeakPassword t = true
          -> Criteria.notWeakPassword e = true)
      /\ (Criteria.noSequentialChars t = true
          -> Criteria.noSequentialChars e = true)).
Proof.
  split; [apply weak_lists_extend|].
  split; [apply pattern_lists_extend|].
  split.
  - cbv zeta. repeat (split; [reflexivity|]).
    split; [apply weak_penalty_EN_le_TR | apply sequential_penalty_EN_le_TR].
  - cbv zeta. destruct p as [|c p]; [repeat split; auto|].
    rewrite (EN_criteria_eq (c :: p)), (TR_criteria_eq (c :: p))
      by discriminate.
    cbn [Criteria.length Criteria.hasLowercase Criteria.hasUppercase
         Criteria.hasNumbers Criteria.hasSpecialChars
         Criteria.noRepeatingChars Criteria.notWeakPassword
         Criteria.noSequentialChars].
    repeat (split; [reflexivity|]).
    rewrite !Z.eqb_eq.
    pose proof (weak_penalty_EN_le_TR (c :: p)).
    pose proof (sequential_penalty_EN_le_TR (c :: p)).
    pose proof (checkWeakPassword_range EN.weakPasswords (c :: p)) as Hw.
    pose proof (checkSequentialChars_range EN.sequentialPatterns (c :: p))
      as Hs.
    change (Rules.checkWeakPassword EN.weakPasswords (c :: p))
      with (EN.checkWeakPassword (c :: p)) in Hw.
    change (Rules.checkSequentialChars EN.sequentialPatterns (c :: p))
      with (EN.checkSequentialChars (c :: p)) in Hs.
    split; intros; lia.
Qed.

End Builds.

(** The password charlie is on the Turkish build's weak list only, and
    UvWxYz lower-cases to a pattern on the Turkish build's list only: the
    penalties and the criteria of the two builds differ on them. *)
Lemma C7_counterexample_charlie :
  EN.weakPasswords <> Validators.WEAK_PASSWORDS
  /\ EN.sequentialPatterns <> Validators.SEQUENTIAL_PATTERNS
  /\ @EN.checkWeakPassword asciiLower (str "charlie") = 0
  /\ @Validators.checkWeakPassword asciiLower (str "charlie") = 20
  /\ Criteria.notWeakPassword
       (PasswordAnalysis.criteria (@EN.analyze asciiLower (str "charlie")))
     = true
  /\ Criteria.notWeakPassword
       (PasswordAnalysis.criteria (@TR.analyze asciiLower (str "charlie")))
     = false
  /\ @EN.checkSequentialChars asciiLower (str "UvWxYz") = 0
  /\ @Validators.checkSequentialChars asciiLower (str "UvWxYz") = 10
  /\ Criteria.noSequentialChars
       (PasswordAnalysis.criteria (@EN.analyze asciiLower (str "UvWxYz")))
     = true
  /\ Criteria.noSequentialChars
       (PasswordAnalysis.criteria (@TR.analyze asciiLower (str "UvWxYz")))
     = false.
Proof.
  split; [intros E; apply (f_equal (@List.length jsstring)) in E;
          vm_compute in E; discriminate|].
  split; [intros E; apply (f_equal (@List.length jsstring)) in E;
          vm_compute in E; discriminate|].
  repeat split; vm_compute; reflexivity.
Qed.

(** ** Feedback and suggestions *)

Lemma pushIf_app (b : bool) (x : string) (arr : list string) :
  pushIf b x arr = arr ++ (if b then [x] else []).
Proof. destruct b; simpl; [reflexivity | rewrite app_nil_r; reflexivity]. Qed.

Lemma unmet_cons (b : bool) (flags : list bool) (x : string)
    (texts : list string) :
  unmet (b :: flags) (x :: texts)
  = (if negb b then [x] else []) ++ unmet flags texts.
Proof. destruct b; reflexivity. Qed.

Lemma unmet_nil_all_met (flags : list bool) :
  forall texts : list string,
    List.length flags = List.length texts ->
    unmet flags texts = [] -> flags = repeat true (List.length flags).
Proof.
  induction flags as [|b flags IH]; intros [|x texts] Hlen Hu;
    try discriminate; [reflexivity|].
  simpl in Hu. destruct b; [|discriminate].
  simpl. f_equal. apply (IH texts); [simpl in Hlen; lia | exact Hu].
Qed.

Lemma EN_suggestions_shape (c : Criteria.t) (score : Z) :
  EN.generateSuggestions c score
  = (if score <? 50 then ["To strengthen your password:"%string] else [])
    ++ unmet (Criteria.values c) EN_suggestionOrder
    ++ (if 70 <=? score
        then ["Good job! Your password has decent security."%string] else [])
    ++ (if 85 <=? score
        then ["Excellent! Your password is very secure."%string] else []).
Proof.
  unfold EN.generateSuggestions, EN_suggestionOrder, Criteria.values.
  cbv zeta. rewrite !pushIf_app, !unmet_cons. cbn [unmet app].
  rewrite app_nil_r, <- !app_assoc. reflexivity.
Qed.

Lemma TR_suggestions_shape (c : Criteria.t) (score : Z) :
  TR.generateSuggestions c score
  = (if score <? 50
     then ["Parolanızı güçlendirmek için aşağıdaki önerileri uygulayın:"%string]
     else [])
    ++ unmet (Criteria.values c) TR_suggestionOrder
    ++ (if 70 <=? score
        then ["Güzel! Parolanız iyi bir güvenlik seviyesine sahip."%string]
        else [])
    ++ (if 85 <=? score
        then ["Mükemmel! Parolanız çok güçlü görünüyor."%string] else []).
Proof.
  unfold TR.generateSuggestions, TR_suggestionOrder, Criteria.values.
  cbv zeta. rewrite !pushIf_app, !unmet_cons. cbn [unmet app].
  rewrite app_nil_r, <- !app_assoc. reflexivity.
Qed.

Lemma EN_feedback_shape (p : jsstring) (c : Criteria.t) :
  EN.generateFeedback p c
  = EN.lengthFeedback (List.length p)
    :: unmet (tail (Criteria.values c)) EN_feedbackOrder
    ++ (if 6 <=? countTrue (Criteria.values c)
        then ["Excellent! Your password meets most security criteria."%string]
        else if 4 <=? countTrue (Criteria.values c)
        then ["Good start! Your password could be stronger with more variety."%string]
        else []).
Proof.
  unfold EN.generateFeedback, EN_feedbackOrder. cbv zeta.
  generalize (countTrue (Criteria.values c)) as n. intros n.
  unfold Criteria.values. cbn [tail].
  rewrite !pushIf_app, !unmet_cons. cbn [unmet].
  rewrite app_nil_r.
  destruct (6 <=? n); [|destruct (4 <=? n)];
    rewrite <- ?app_assoc, ?app_nil_r; reflexivity.
Qed.

Lemma TR_feedback_shape (p : jsstring) (v : ValidationResults.t)
    (c : Criteria.t) :
  TR.generateFeedback p v c
  = TR.lengthFeedback (List.length p)
    :: unmet (tail (Criteria.values c)) TR_feedbackOrder
    ++ (if 6 <=? countTrue (Criteria.values c)
        then ["Harika! Parolanız çoğu güvenlik kriterini karşılıyor."%string]
        else if 4 <=? countTrue (Criteria.values c)
        then ["İyi başlangıç! Ancak daha fazla güvenlik için geliştirilebilir."%string]
        else []).
Proof.
  unfold TR.generateFeedback, TR_feedbackOrder. cbv zeta.
  generalize (countTrue (Criteria.values c)) as n. intros n.
  unfold Criteria.values. cbn [tail].
  rewrite !pushIf_app, !unmet_cons. cbn [unmet].
  rewrite app_nil_r.
  destruct (6 <=? n); [|destruct (4 <=? n)];
    rewrite <- ?app_assoc, ?app_nil_r; reflexivity.
Qed.

Section Messages.
Context `{LowerCase}.

Lemma all_met_score (weak patterns : list jsstring) (p : jsstring) :
  let v := Rules.runAllValidations weak patterns p in
  20 <= ValidationResults.length v ->
  0 < ValidationResults.hasLowercase v ->
  0 < ValidationResults.hasUppercase v ->
  0 < ValidationResults.hasNumbers v ->
  0 < ValidationResults.hasSpecialChars v ->
  ValidationResults.repeatingCharsPenalty v = 0 ->
  ValidationResults.weakPasswordPenalty v = 0 ->
  ValidationResults.sequentialCharsPenalty v = 0 ->
  70 <= clamp (bonuses v - penalties v).
Proof.
  cbv zeta. unfold bonuses, penalties, Rules.runAllValidations.
  cbn [ValidationResults.length ValidationResults.hasLowercase
       ValidationResults.hasUppercase ValidationResults.hasNumbers
       ValidationResults.hasSpecialChars ValidationResults.varietyBonus
       ValidationResults.repeatingCharsPenalty
       ValidationResults.weakPasswordPenalty
       ValidationResults.sequentialCharsPenalty].
  intros Hlen Hlo Hup Hnu Hsp -> -> ->.
  unfold Rules.hasLowercase, Rules.hasUppercase, Rules.hasNumbers,
    Rules.hasSpecialChars, Rules.checkCharacterVariety in *.
  destruct (test isLower p); [|lia].
  destruct (test isUpper p); [|lia].
  destruct (test isDigit p); [|lia].
  destruct (test isListedSpecial p); [|lia].
  destruct (test (fun c => negb (isAlnum c)) p);
    cbv [countTrue List.filter List.length Z.of_nat Pos.of_succ_nat Pos.succ
         Z.eqb Pos.eqb]; unfold clamp; lia.
Qed.

Lemma EN_messages_eq (p : jsstring) :
  p <> [] ->
  PasswordAnalysis.feedback (EN.analyze p)
  = EN.generateFeedback p (PasswordAnalysis.criteria (EN.analyze p))
  /\ PasswordAnalysis.suggestions (EN.analyze p)
     = EN.generateSuggestions (PasswordAnalysis.criteria (EN.analyze p))
         (PasswordAnalysis.score (EN.analyze p)).
Proof. destruct p; [congruence | split; reflexivity]. Qed.

Lemma TR_messages_eq (p : jsstring) :
  p <> [] ->
  PasswordAnalysis.feedback (TR.analyze p)
  = TR.generateFeedback p (Validators.runAllValidations p)
      (PasswordAnalysis.criteria (TR.analyze p))
  /\ PasswordAnalysis.suggestions (TR.analyze p)
     = TR.generateSuggestions (PasswordAnalysis.criteria (TR.analyze p))
         (PasswordAnalysis.score (TR.analyze p)).
Proof. destruct p; [congruence | split; reflexivity]. Qed.

(** A non-empty password that meets all eight criteria scores 70 or more. *)
Lemma EN_all_met_score (p : jsstring) :
  p <> [] ->
  Criteria.values (PasswordAnalysis.criteria (EN.analyze p)) = repeat true 8 ->
  70 <= PasswordAnalysis.score (EN.analyze p).
Proof.
  intros Hne Hall. rewrite (EN_criteria_eq p Hne) in Hall.
  unfold Criteria.values in Hall.
  cbn [Criteria.length Criteria.hasLowercase Criteria.hasUppercase
       Criteria.hasNumbers Criteria.hasSpecialChars Criteria.noRepeatingChars
       Criteria.notWeakPassword Criteria.noSequentialChars repeat] in Hall.
  injection Hall as H1 H2 H3 H4 H5 H6 H7 H8.
  rewrite EN_score_eq.
  destruct p as [|c p]; [congruence|].
  change (List.length (c :: p) =? 0)%nat with false. cbv iota.
  rewrite EN_runAllValidations_eq.
  apply all_met_score;
    cbn [Rules.runAllValidations ValidationResults.length
         ValidationResults.hasLowercase
         ValidationResults.hasUppercase ValidationResults.hasNumbers
         ValidationResults.hasSpecialChars
         ValidationResults.repeatingCharsPenalty
         ValidationResults.weakPasswordPenalty
         ValidationResults.sequentialCharsPenalty];
    first [apply Z.leb_le | apply Z.ltb_lt | apply Z.eqb_eq]; assumption.
Qed.

Lemma TR_all_met_score (p : jsstring) :
  p <> [] ->
  Criteria.values (PasswordAnalysis.criteria (TR.analyze p)) = repeat true 8 ->
  70 <= PasswordAnalysis.score (TR.analyze p).
Proof.
  intros Hne Hall. rewrite (TR_criteria_eq p Hne) in Hall.
  unfold Criteria.values in Hall.
  cbn [Criteria.length Criteria.hasLowercase Criteria.hasUppercase
       Criteria.hasNumbers Criteria.hasSpecialChars Criteria.noRepeatingChars
       Criteria.notWeakPassword Criteria.noSequentialChars repeat] in Hall.
  injection Hall as H1 H2 H3 H4 H5 H6 H7 H8.
  rewrite TR_score_eq.
  destruct p as [|c p]; [congruence|].
  change (List.length (c :: p) =? 0)%nat with false. cbv iota.
  rewrite TR_runAllValidations_eq.
  apply all_met_score;
    cbn [Rules.runAllValidations ValidationResults.length
         ValidationResults.hasLowercase
         ValidationResults.hasUppercase ValidationResults.hasNumbers
         ValidationResults.hasSpecialChars
         ValidationResults.repeatingCharsPenalty
         ValidationResults.weakPasswordPenalty
         ValidationResults.sequentialCharsPenalty];
    first [apply Z.leb_le | apply Z.ltb_lt | apply Z.eqb_eq]; assumption.
Qed.

(** Bullets for the unmet criteria, or else a closing line from score 70
    on: the list is not empty. *)
Lemma shape_nonempty (flags : list bool) (order head good best : list string)
    (score : Z) :
  List.length flags = List.length order ->
  (flags = repeat true (List.length flags) -> 70 <= score) ->
  forall x : string,
    head ++ unmet flags order ++ (if 70 <=? score then [x] else good) ++ best
    <> [].
Proof.
  intros Hlen Hall x E.
  apply app_eq_nil in E. destruct E as [_ E].
  apply app_eq_nil in E. destruct E as [Hu E].
  apply (unmet_nil_all_met flags order Hlen) in Hu.
  apply Hall in Hu. apply Z.leb_le in Hu. rewrite Hu in E. discriminate.
Qed.

(** C8. For every non-empty password, in both builds, feedback and
    suggestions are not empty and follow the fixed rule order: the feedback
    opens with the length message, followed by the messages of the unmet
    criteria in the order lowercase, uppercase, digit, special, repeating,
    weak, sequential, then the closing line chosen by the number of met
    criteria; the suggestions are the header (score below 50), the bullets
    of the unmet criteria in the order length, lowercase, uppercase, digit,
    special, repeating, weak, sequential, then the closing lines for scores
    from 70 and from 85. *)
Theorem C8_messages_nonempty_in_rule_order (p : jsstring) :
  p <> [] ->
  (let a := EN.analyze p in
   let c := PasswordAnalysis.criteria a in
   let s := PasswordAnalysis.score a in
   PasswordAnalysis.feedback a <> []
   /\ PasswordAnalysis.suggestions a <> []
   /\ PasswordAnalysis.feedback a
      = EN.lengthFeedback (List.length p)
        :: unmet (tail (Criteria.values c)) EN_feedbackOrder
        ++ (if 6 <=? countTrue (Criteria.values c)
            then ["Excellent! Your password meets most security criteria."%string]
            else if 4 <=? countTrue (Criteria.values c)
            then ["Good start! Your password could be stronger with more variety."%string]
            else [])
   /\ PasswordAnalysis.suggestions a
      = (if s <? 50 then ["To strengthen your password:"%string] else [])
        ++ unmet (Criteria.values c) EN_suggestionOrder
        ++ (if 70 <=? s
            then ["Good job! Your password has decent security."%string]
            else [])
        ++ (if 85 <=? s
            then ["Excellent! Your password is very secure."%string]
            else []))
  /\
  (let a := TR.analyze p in
   let c := PasswordAnalysis.criteria a in
   let s := PasswordAnalysis.score a in
   PasswordAnalysis.feedback a <> []
   /\ PasswordAnalysis.suggestions a <> []
   /\ PasswordAnalysis.feedback a
      = TR.lengthFeedback (List.length p)
        :: unmet (tail (Criteria.values c)) TR_feedbackOrder
        ++ (if 6 <=? countTrue (Criteria.values c)
            then ["Harika! Parolanız çoğu güvenlik kriterini karşılıyor."%string]
            else if 4 <=? countTrue (Criteria.values c)
            then ["İyi başlangıç! Ancak daha fazla güvenlik için geliştirilebilir."%string]
            else [])
   /\ PasswordAnalysis.suggestions a
      = (if s <? 50
         then ["Parolanızı güçlendirmek için aşağıdaki önerileri uygulayın:"%string]
         else [])
        ++ unmet (Criteria.values c) TR_suggestionOrder
        ++ (if 70 <=? s
            then ["Güzel! Parolanız iyi bir güvenlik seviyesine sahip."%string]
            else [])
        ++ (if 85 <=? s
            then ["Mükemmel! Parolanız çok güçlü görünüyor."%string]
            else [])).
Proof.
  intros Hne. cbv zeta. split.
  - destruct (EN_messages_eq p Hne) as [Hf Hs].
    rewrite Hf, Hs, EN_feedback_shape, EN_suggestions_shape.
    split; [discriminate|]. split; [|split; reflexivity].
    apply shape_nonempty; [reflexivity|].
    apply (EN_all_met_score p Hne).
  - destruct (TR_messages_eq p Hne) as [Hf Hs].
    rewrite Hf, Hs, TR_feedback_shape, TR_suggestions_shape.
    split; [discriminate|]. split; [|split; reflexivity].
    apply shape_nonempty; [reflexivity|].
    apply (TR_all_met_score p Hne).
Qed.

End Messages.

Lemma C8_messages_witness :
  PasswordAnalysis.feedback (@EN.analyze asciiLower (str "Tr0ub4dor&9Zx"))
  <> []
  /\ PasswordAnalysis.suggestions (@TR.analyze asciiLower (str "Tr0ub4dor&9Zx"))
     <> [].
Proof.
  pose proof (@C8_messages_nonempty_in_rule_order asciiLower
                (str "Tr0ub4dor&9Zx") ltac:(discriminate)) as W.
  split; [exact (proj1 (proj1 W)) | exact (proj1 (proj2 (proj2 W)))].
Defined.

(** * Further properties of the code *)

(** ** Windows of three characters *)

Lemma windows3_cons3 (a b c : Z) (r : jsstring) :
  windows3 (a :: b :: c :: r) = (a, b, c) :: windows3 (b :: c :: r).
Proof. reflexivity. Qed.

Lemma windows3_spec (p : jsstring) (a b c : Z) :
  In (a, b, c) (windows3 p) <-> occursIn [a; b; c] p.
Proof.
  split.
  - induction p as [|x p IH]; [intros []|].
    destruct p as [|y [|z r]]; [intros [] | intros [] |].
    rewrite windows3_cons3. intros [E | Hin].
    + inversion E; subst. exists [], r. reflexivity.
    + destruct (IH Hin) as (pre & post & E).
      exists (x :: pre), post. cbn [app]. rewrite E. reflexivity.
  - intros (pre & post & ->). induction pre as [|x pre IH].
    + left. reflexivity.
    + destruct pre as [|y [|z pre]]; cbn [app] in *;
        rewrite windows3_cons3; right; exact IH.
Qed.

Lemma tripleCount_cons3 (a b c : Z) (r : jsstring) :
  tripleCount (a :: b :: c :: r)
  = (if (a =? b) && (b =? c) then 1 else 0) + tripleCount (b :: c :: r).
Proof.
  unfold tripleCount. rewrite windows3_cons3. cbn [List.filter].
  destruct ((a =? b) && (b =? c)); cbn [List.length]; lia.
Qed.

Lemma tripleCount_nonneg (p : jsstring) : 0 <= tripleCount p.
Proof. unfold tripleCount. lia. Qed.

Lemma tripleCount_zero_iff (p : jsstring) :
  tripleCount p = 0 <-> ~ exists c, occursIn [c; c; c] p.
Proof.
  unfold tripleCount.
  set (f := fun w : Z * Z * Z => let '(a, b, c) := w in (a =? b) && (b =? c)).
  split.
  - intros Hz (c & Hc). apply windows3_spec in Hc.
    assert (Hin : In (c, c, c) (List.filter f (windows3 p))).
    { apply filter_In. split; [exact Hc|]. unfold f.
      rewrite Z.eqb_refl. reflexivity. }
    destruct (List.filter f (windows3 p)); [destruct Hin | discriminate].
  - intros Hn. destruct (List.filter f (windows3 p)) as [|w l] eqn:E;
      [reflexivity|].
    exfalso. apply Hn.
    assert (Hin : In w (List.filter f (windows3 p))) by (rewrite E; left; reflexivity).
    apply filter_In in Hin. destruct Hin as [Hw Hf].
    destruct w as [[a b] c]. unfold f in Hf.
    apply andb_true_iff in Hf. destruct Hf as [E1 E2].
    apply Z.eqb_eq in E1, E2. subst b c.
    exists a. apply windows3_spec. exact Hw.
Qed.

(** ** The repeating-character rule *)

Lemma repeatingLoop_count (rest : jsstring) :
  forall prev repeatCount penalty,
    1 <= repeatCount ->
    Rules.repeatingLoop prev repeatCount penalty rest
    = penalty
      + 5 * (if 2 <=? repeatCount
             then tripleCount (prev :: prev :: rest)
             else tripleCount (prev :: rest)).
Proof.
  induction rest as [|c rest IH]; intros prev rc pen Hrc.
  - cbn [Rules.repeatingLoop].
    destruct (2 <=? rc); change (tripleCount _) with 0; lia.
  - cbn [Rules.repeatingLoop].
    rewrite tripleCount_cons3, Z.eqb_refl, (Z.eqb_sym prev c). cbn [andb].
    assert (Hpc : tripleCount (prev :: c :: rest)
                  = if c =? prev then tripleCount (c :: c :: rest)
                    else tripleCount (c :: rest)).
    { destruct (Z.eqb_spec c prev) as [->|Hne]; [reflexivity|].
      destruct rest as [|d r]; [reflexivity|]. rewrite tripleCount_cons3.
      rewrite (proj2 (Z.eqb_neq prev c)) by congruence. reflexivity. }
    rewrite Hpc. destruct (c =? prev) eqn:E.
    + rewrite IH by lia.
      replace (2 <=? rc + 1) with true by (symmetry; apply Z.leb_le; lia).
      destruct (Z.leb_spec 2 rc); destruct (Z.leb_spec 3 (rc + 1)); lia.
    + rewrite IH by lia. change (2 <=? 1) with false. cbv iota.
      destruct (2 <=? rc); lia.
Qed.

Lemma checkRepeatingChars_count (p : jsstring) :
  Rules.checkRepeatingChars p = Z.min (5 * tripleCount p) 15.
Proof.
  unfold Rules.checkRepeatingChars.
  destruct (Nat.ltb_spec (List.length p) 3) as [Hlt | Hge].
  - destruct p as [|a [|b [|c r]]]; try reflexivity.
    cbn [List.length] in Hlt. lia.
  - destruct p as [|c0 rest]; [reflexivity|].
    rewrite repeatingLoop_count by lia. change (2 <=? 1) with false.
    cbv iota. f_equal.
Qed.

(** X1. The repeating-character penalty is 5 for every position that
    completes three equal characters in a row, capped at 15, and 0 on
    passwords shorter than 3. *)
Theorem X1_repeating_penalty_counts_triples (p : jsstring) :
  Validators.checkRepeatingChars p = Z.min (5 * tripleCount p) 15
  /\ EN.checkRepeatingChars p = Z.min (5 * tripleCount p) 15
  /\ ((List.length p < 3)%nat -> Validators.checkRepeatingChars p = 0).
Proof.
  pose proof (checkRepeatingChars_count p) as E.
  split; [exact E|]. split; [exact E|].
  intros Hlt. unfold Validators.checkRepeatingChars, Rules.checkRepeatingChars.
  apply Nat.ltb_lt in Hlt. rewrite Hlt. reflexivity.
Qed.

Lemma checkRepeatingChars_zero_iff (p : jsstring) :
  Rules.checkRepeatingChars p = 0 <-> ~ exists c, occursIn [c; c; c] p.
Proof.
  rewrite <- tripleCount_zero_iff, checkRepeatingChars_count.
  pose proof (tripleCount_nonneg p). lia.
Qed.

Lemma tripleCount_repeat (c : Z) (n : nat) :
  tripleCount (repeat c (S (S n))) = Z.of_nat n.
Proof.
  induction n as [|n IH]; [reflexivity|].
  change (repeat c (S (S (S n)))) with (c :: c :: c :: repeat c n).
  rewrite tripleCount_cons3, Z.eqb_refl. cbn [andb].
  change (c :: c :: repeat c n) with (repeat c (S (S n))).
  rewrite IH. lia.
Qed.

Section RepeatingCriterion.
Context `{LowerCase}.

(** X2. For a non-empty password the criterion [noRepeatingChars] is met, in
    both builds, exactly when no character stands three times in a row. *)
Theorem X2_no_repeating_iff_no_triple (p : jsstring) :
  p <> [] ->
  (Validators.checkRepeatingChars p = 0
   <-> ~ exists c, occursIn [c; c; c] p)
  /\ (Criteria.noRepeatingChars (PasswordAnalysis.criteria (EN.analyze p))
      = true <-> ~ exists c, occursIn [c; c; c] p)
  /\ (Criteria.noRepeatingChars (PasswordAnalysis.criteria (TR.analyze p))
      = true <-> ~ exists c, occursIn [c; c; c] p).
Proof.
  intros Hne. split; [apply checkRepeatingChars_zero_iff|].
  rewrite (EN_criteria_eq p Hne), (TR_criteria_eq p Hne).
  cbn [Criteria.noRepeatingChars]. rewrite !Z.eqb_eq.
  split; apply checkRepeatingChars_zero_iff.
Qed.

(** X3. A password made of one character repeated n times, n at least 3,
    has repeating penalty min(5 (n - 2), 15), which is at least 5, and its
    criterion [noRepeatingChars] is false in both builds. *)
Theorem X3_one_character_repeated (c : Z) (n : nat) :
  (3 <= n)%nat ->
  Validators.checkRepeatingChars (repeat c n)
  = Z.min (5 * (Z.of_nat n - 2)) 15
  /\ 5 <= Validators.checkRepeatingChars (repeat c n) <= 15
  /\ Criteria.noRepeatingChars
       (PasswordAnalysis.criteria (EN.analyze (repeat c n))) = false
  /\ Criteria.noRepeatingChars
       (PasswordAnalysis.criteria (TR.analyze (repeat c n))) = false.
Proof.
  intros Hn. destruct n as [|[|n]]; try lia.
  assert (E : Rules.checkRepeatingChars (repeat c (S (S n)))
              = Z.min (5 * (Z.of_nat (S (S n)) - 2)) 15).
  { rewrite checkRepeatingChars_count, tripleCount_repeat. f_equal. lia. }
  assert (Hne : repeat c (S (S n)) <> []) by discriminate.
  split; [exact E|].
  split; [unfold Validators.checkRepeatingChars; rewrite E; lia|].
  rewrite (EN_criteria_eq _ Hne), (TR_criteria_eq _ Hne).
  cbn [Criteria.noRepeatingChars].
  unfold EN.checkRepeatingChars, Validators.checkRepeatingChars.
  rewrite E. split; apply Z.eqb_neq; lia.
Qed.

End RepeatingCriterion.

Lemma X2_no_repeating_witness :
  Criteria.noRepeatingChars
    (PasswordAnalysis.criteria (@EN.analyze asciiLower (str "aab"))) = true
  <-> ~ exists c, occursIn [c; c; c] (str "aab").
Proof.
  exact (proj1 (proj2 (@X2_no_repeating_iff_no_triple asciiLower (str "aab")
                          ltac:(discriminate)))).
Defined.

Lemma X3_one_character_witness :
  Validators.checkRepeatingChars (repeat 97 8) = 15.
Proof.
  exact (proj1 (@X3_one_character_repeated asciiLower 97 8 ltac:(lia))).
Defined.

(** ** The sequential-character rule *)

Lemma hasRunOfThree_windows (p : jsstring) :
  Rules.hasRunOfThree p = existsb isStepWindow (windows3 p).
Proof.
  induction p as [|a p IH]; [reflexivity|].
  destruct p as [|b [|c r]]; [reflexivity | reflexivity |].
  rewrite windows3_cons3. cbn [existsb]. rewrite <- IH.
  cbn [Rules.hasRunOfThree isStepWindow].
  destruct (((b =? a + 1) && (c =? b + 1)) || ((b =? a - 1) && (c =? b - 1)));
    reflexivity.
Qed.

Lemma hasRunOfThree_spec (p : jsstring) :
  Rules.hasRunOfThree p = true <-> hasStepRun p.
Proof.
  rewrite hasRunOfThree_windows, existsb_exists. unfold hasStepRun. split.
  - intros ([[a b] c] & Hin & Hs). apply windows3_spec in Hin.
    exists a. unfold isStepWindow in Hs.
    apply orb_true_iff in Hs. destruct Hs as [Hs | Hs];
      apply andb_true_iff in Hs; destruct Hs as [E1 E2];
      apply Z.eqb_eq in E1, E2; subst b c.
    + left. replace (a + 2) with (a + 1 + 1) by lia. exact Hin.
    + right. replace (a - 2) with (a - 1 - 1) by lia. exact Hin.
  - intros (a & [Ho | Ho]); apply windows3_spec in Ho.
    + exists (a, a + 1, a + 2). split; [exact Ho|].
      unfold isStepWindow. rewrite Z.eqb_refl.
      replace (a + 2 =? a + 1 + 1) with true by (symmetry; apply Z.eqb_eq; lia).
      reflexivity.
    + exists (a, a - 1, a - 2). split; [exact Ho|].
      unfold isStepWindow. rewrite (Z.eqb_refl (a - 1)).
      replace (a - 2 =? a - 1 - 1) with true by (symmetry; apply Z.eqb_eq; lia).
      cbn [andb]. apply orb_true_r.
Qed.

Lemma patternPenalty_from_count (lp : jsstring) (patterns : list jsstring) :
  forall start,
    fold_left
      (fun penalty pattern =>
         if includes lp pattern then penalty + 10 else penalty)
      patterns start
    = start + 10 * patternCount lp patterns.
Proof.
  unfold patternCount.
  induction patterns as [|pat patterns IH]; intros start;
    cbn [fold_left List.filter]; [cbn [List.length]; lia|].
  rewrite IH. destruct (includes lp pat); cbn [List.length]; lia.
Qed.

Lemma patternCount_zero_iff (lp : jsstring) (patterns : list jsstring) :
  patternCount lp patterns = 0
  <-> forall pat, In pat patterns -> ~ occursIn pat lp.
Proof.
  unfold patternCount. split.
  - intros Hz pat Hin Ho. apply includes_spec in Ho.
    assert (Hf : In pat (List.filter (includes lp) patterns))
      by (apply filter_In; split; assumption).
    destruct (List.filter (includes lp) patterns);
      [destruct Hf | discriminate].
  - intros Hn. destruct (List.filter (includes lp) patterns) as [|w l] eqn:E;
      [reflexivity|]. exfalso.
    assert (Hf : In w (List.filter (includes lp) patterns))
      by (rewrite E; left; reflexivity).
    apply filter_In in Hf. destruct Hf as [Hin Hi].
    apply (Hn w Hin). apply includes_spec. exact Hi.
Qed.

Section SequentialRule.
Context `{LowerCase}.

Lemma checkSequentialChars_count (patterns : list jsstring) (p : jsstring) :
  Rules.checkSequentialChars patterns p
  = Z.min (10 * patternCount (toLowerCase p) patterns
           + (if Rules.hasRunOfThree p then 5 else 0)) 15.
Proof.
  unfold Rules.checkSequentialChars, Rules.patternPenalty.
  rewrite patternPenalty_from_count.
  destruct (Rules.hasRunOfThree p); f_equal; lia.
Qed.

Lemma checkSequentialChars_zero_iff (patterns : list jsstring)
    (p : jsstring) :
  Rules.checkSequentialChars patterns p = 0
  <-> (forall pat, In pat patterns -> ~ occursIn pat (toLowerCase p))
      /\ ~ hasStepRun p.
Proof.
  rewrite checkSequentialChars_count, <- patternCount_zero_iff,
    <- hasRunOfThree_spec.
  assert (0 <= patternCount (toLowerCase p) patterns)
    by (unfold patternCount; lia).
  destruct (Rules.hasRunOfThree p); split.
  - lia.
  - intros [_ Hn]. exfalso. apply Hn. reflexivity.
  - intros Hz. split; [lia | discriminate].
  - intros [Hz _]. lia.
Qed.

(** X4. For a non-empty password the criterion [noSequentialChars] is met
    exactly when no pattern of the build's list occurs in the lower-cased
    password and the password itself has no three consecutive characters
    whose codes go up by one or down by one. *)
Theorem X4_no_sequential_iff (p : jsstring) :
  p <> [] ->
  (Criteria.noSequentialChars (PasswordAnalysis.criteria (EN.analyze p))
   = true
   <-> (forall pat, In pat EN.sequentialPatterns ->
                    ~ occursIn pat (toLowerCase p))
       /\ ~ hasStepRun p)
  /\
  (Criteria.noSequentialChars (PasswordAnalysis.criteria (TR.analyze p))
   = true
   <-> (forall pat, In pat Validators.SEQUENTIAL_PATTERNS ->
                    ~ occursIn pat (toLowerCase p))
       /\ ~ hasStepRun p).
Proof.
  intros Hne.
  rewrite (EN_criteria_eq p Hne), (TR_criteria_eq p Hne).
  cbn [Criteria.noSequentialChars]. rewrite !Z.eqb_eq.
  split; apply checkSequentialChars_zero_iff.
Qed.

(** X5. The sequential penalty is 10 for every listed pattern that occurs
    in the lower-cased password, plus 5 if the password has three
    consecutive characters in steps of one, capped at 15; so it is 0, 5, 10
    or 15: 0 without pattern and run, 5 for a run without pattern, 10 for a
    single pattern without run, 15 otherwise. *)
Theorem X5_sequential_penalty_classified (p : jsstring) :
  let n := patternCount (toLowerCase p) Validators.SEQUENTIAL_PATTERNS in
  let run := Rules.hasRunOfThree p in
  Validators.checkSequentialChars p
  = Z.min (10 * n + (if run then 5 else 0)) 15
  /\ Validators.checkSequentialChars p
     = (if n =? 0 then (if run then 5 else 0)
        else if (n =? 1) && negb run then 10 else 15)
  /\ EN.checkSequentialChars p
     = Z.min (10 * patternCount (toLowerCase p) EN.sequentialPatterns
              + (if run then 5 else 0)) 15.
Proof.
  cbv zeta. unfold Validators.checkSequentialChars, EN.checkSequentialChars.
  rewrite !checkSequentialChars_count.
  split; [reflexivity|]. split; [|reflexivity].
  assert (0 <= patternCount (toLowerCase p) Validators.SEQUENTIAL_PATTERNS)
    by (unfold patternCount; lia).
  destruct (Z.eqb_spec
              (patternCount (toLowerCase p) Validators.SEQUENTIAL_PATTERNS) 0);
    [destruct (Rules.hasRunOfThree p); lia|].
  destruct (Z.eqb_spec
              (patternCount (toLowerCase p) Validators.SEQUENTIAL_PATTERNS) 1);
    destruct (Rules.hasRunOfThree p); cbn [andb negb]; lia.
Qed.

End SequentialRule.

Lemma X4_no_sequential_witness :
  Criteria.noSequentialChars
    (PasswordAnalysis.criteria (@EN.analyze asciiLower (str "xay"))) = true
  <-> (forall pat, In pat EN.sequentialPatterns ->
                   ~ occursIn pat (@toLowerCase asciiLower (str "xay")))
      /\ ~ hasStepRun (str "xay").
Proof.
  exact (proj1 (@X4_no_sequential_iff asciiLower (str "xay")
                  ltac:(discriminate))).
Defined.

(** ** The variety bonus and the presence bonuses *)

Lemma test_nonalnum_Exists (p : jsstring) :
  test (fun c => negb (isAlnum c)) p = true
  <-> Exists (fun c => isAlnum c = false) p.
Proof.
  rewrite test_Exists. split; apply List.Exists_impl; intros c;
    rewrite negb_true_iff; trivial.
Qed.

Lemma test_listed_nonalnum (p : jsstring) :
  test isListedSpecial p = true ->
  test (fun c => negb (isAlnum c)) p = true.
Proof.
  unfold test. rewrite !existsb_exists. intros (c & Hin & Hc).
  exists c. split; [exact Hin|]. apply isListedSpecial_In in Hc.
  pose proof specialClass_not_alnum as Hall.
  rewrite List.Forall_forall in Hall. rewrite (Hall c Hc). reflexivity.
Qed.

Lemma variety_by_tests (p : jsstring) :
  Rules.checkCharacterVariety p = 10
  <-> test isLower p = true /\ test isUpper p = true
      /\ test isDigit p = true
      /\ test (fun c => negb (isAlnum c)) p = true.
Proof.
  unfold Rules.checkCharacterVariety.
  destruct (test isLower p), (test isUpper p), (test isDigit p),
    (test (fun c => negb (isAlnum c)) p);
    cbv [countTrue List.filter List.length Z.of_nat Pos.of_succ_nat Pos.succ
         Z.eqb Pos.eqb];
    split; try discriminate; try tauto; intuition discriminate.
Qed.

(** X6. The variety bonus is 0, 2, 5 or 10, and it is 10 exactly when the
    password has a lowercase letter, an uppercase letter, a digit and a
    character outside a-z, A-Z, 0-9; in particular it is 10 whenever the
    four presence bonuses are all earned. *)
Theorem X6_variety_bonus_full (p : jsstring) :
  In (Validators.checkCharacterVariety p) [0; 2; 5; 10]
  /\ (Validators.checkCharacterVariety p = 10
      <-> Validators.hasLowercase p = 10 /\ Validators.hasUppercase p = 10
          /\ Validators.hasNumbers p = 10
          /\ Exists (fun c => isAlnum c = false) p)
  /\ (Validators.hasLowercase p = 10 /\ Validators.hasUppercase p = 10
      /\ Validators.hasNumbers p = 10 /\ Validators.hasSpecialChars p = 15
      -> Validators.checkCharacterVariety p = 10)
  /\ EN.checkCharacterVariety p = Validators.checkCharacterVariety p.
Proof.
  split.
  { unfold Validators.checkCharacterVariety, Rules.checkCharacterVariety.
    repeat match goal with |- context [if ?b then _ else _] => destruct b end;
      simpl; tauto. }
  assert (Hiff : Rules.checkCharacterVariety p = 10
      <-> Rules.hasLowercase p = 10 /\ Rules.hasUppercase p = 10
          /\ Rules.hasNumbers p = 10
          /\ Exists (fun c => isAlnum c = false) p).
  { rewrite variety_by_tests, <- test_nonalnum_Exists.
    unfold Rules.hasLowercase, Rules.hasUppercase, Rules.hasNumbers.
    destruct (test isLower p), (test isUpper p), (test isDigit p);
      intuition (try discriminate; try reflexivity). }
  split; [exact Hiff|]. split; [|reflexivity].
  intros (Hl & Hu & Hn & Hs). apply Hiff.
  repeat (split; [assumption|]).
  apply test_nonalnum_Exists, test_listed_nonalnum.
  unfold Validators.hasSpecialChars, Rules.hasSpecialChars in Hs.
  destruct (test isListedSpecial p); [reflexivity | discriminate].
Qed.

(** ** Scores of passwords that meet every criterion *)

Section FullMarks.
Context `{LowerCase}.

Lemma all_met_outputs (weak patterns : list jsstring) (p : jsstring) :
  let v := Rules.runAllValidations weak patterns p in
  20 <= ValidationResults.length v ->
  0 < ValidationResults.hasLowercase v ->
  0 < ValidationResults.hasUppercase v ->
  0 < ValidationResults.hasNumbers v ->
  0 < ValidationResults.hasSpecialChars v ->
  ValidationResults.repeatingCharsPenalty v = 0 ->
  ValidationResults.weakPasswordPenalty v = 0 ->
  ValidationResults.sequentialCharsPenalty v = 0 ->
  clamp (bonuses v - penalties v)
  = if (List.length p <? 12)%nat then 75 else 85.
Proof.
  cbv zeta. unfold bonuses, penalties, Rules.runAllValidations.
  cbn [ValidationResults.length ValidationResults.hasLowercase
       ValidationResults.hasUppercase ValidationResults.hasNumbers
       ValidationResults.hasSpecialChars ValidationResults.varietyBonus
       ValidationResults.repeatingCharsPenalty
       ValidationResults.weakPasswordPenalty
       ValidationResults.sequentialCharsPenalty].
  intros Hlen Hlo Hup Hnu Hsp -> -> ->.
  assert (Hv : Rules.checkCharacterVariety p = 10).
  { apply variety_by_tests.
    unfold Rules.hasLowercase, Rules.hasUppercase, Rules.hasNumbers,
      Rules.hasSpecialChars in *.
    destruct (test isLower p); [|lia].
    destruct (test isUpper p); [|lia].
    destruct (test isDigit p); [|lia].
    destruct (test isListedSpecial p) eqn:E; [|lia].
    repeat split. apply test_listed_nonalnum. exact E. }
  rewrite Hv.
  assert (Hlo' : Rules.hasLowercase p = 10)
    by (unfold Rules.hasLowercase in *; destruct (test _ _); lia).
  assert (Hup' : Rules.hasUppercase p = 10)
    by (unfold Rules.hasUppercase in *; destruct (test _ _); lia).
  assert (Hnu' : Rules.hasNumbers p = 10)
    by (unfold Rules.hasNumbers in *; destruct (test _ _); lia).
  assert (Hsp' : Rules.hasSpecialChars p = 15)
    by (unfold Rules.hasSpecialChars in *; destruct (test _ _); lia).
  rewrite Hlo', Hup', Hnu', Hsp'.
  pose proof (checkLength_values p) as Hvals.
  pose proof (checkLength_eq_30 p) as H30.
  unfold clamp. destruct (Nat.ltb_spec (List.length p) 12);
    simpl in Hvals; lia.
Qed.

Lemma EN_values_all_met (p : jsstring) :
  p <> [] ->
  (Criteria.values (PasswordAnalysis.criteria (EN.analyze p)) = repeat true 8
   <-> 20 <= EN.checkLength p /\ 0 < EN.hasLowercase p
       /\ 0 < EN.hasUppercase p /\ 0 < EN.hasNumbers p
       /\ 0 < EN.hasSpecialChars p /\ EN.checkRepeatingChars p = 0
       /\ EN.checkWeakPassword p = 0 /\ EN.checkSequentialChars p = 0).
Proof.
  intros Hne. rewrite (EN_criteria_eq p Hne). unfold Criteria.values.
  cbn [Criteria.length Criteria.hasLowercase Criteria.hasUppercase
       Criteria.hasNumbers Criteria.hasSpecialChars Criteria.noRepeatingChars
       Criteria.notWeakPassword Criteria.noSequentialChars repeat].
  rewrite <- Z.leb_le, <- !Z.ltb_lt, <- !Z.eqb_eq. split.
  - intros E. injection E as -> -> -> -> -> -> -> ->. repeat split.
  - intros (-> & -> & -> & -> & -> & -> & -> & ->). reflexivity.
Qed.

Lemma TR_values_all_met (p : jsstring) :
  p <> [] ->
  (Criteria.values (PasswordAnalysis.criteria (TR.analyze p)) = repeat true 8
   <-> 20 <= Validators.checkLength p /\ 0 < Validators.hasLowercase p
       /\ 0 < Validators.hasUppercase p /\ 0 < Validators.hasNumbers p
       /\ 0 < Validators.hasSpecialChars p
       /\ Validators.checkRepeatingChars p = 0
       /\ Validators.checkWeakPassword p = 0
       /\ Validators.checkSequentialChars p = 0).
Proof.
  intros Hne. rewrite (TR_criteria_eq p Hne). unfold Criteria.values.
  cbn [Criteria.length Criteria.hasLowercase Criteria.hasUppercase
       Criteria.hasNumbers Criteria.hasSpecialChars Criteria.noRepeatingChars
       Criteria.notWeakPassword Criteria.noSequentialChars repeat].
  rewrite <- Z.leb_le, <- !Z.ltb_lt, <- !Z.eqb_eq. split.
  - intros E. injection E as -> -> -> -> -> -> -> ->. repeat split.
  - intros (-> & -> & -> & -> & -> & -> & -> & ->). reflexivity.
Qed.

Lemma values_all_met_nonempty_EN (p : jsstring) :
  Criteria.values (PasswordAnalysis.criteria (EN.analyze p)) = repeat true 8 ->
  p <> [].
Proof. intros E ->. discriminate E. Qed.

Lemma values_all_met_nonempty_TR (p : jsstring) :
  Criteria.values (PasswordAnalysis.criteria (TR.analyze p)) = repeat true 8 ->
  p <> [].
Proof. intros E ->. discriminate E. Qed.

Lemma EN_all_met_exact_score (p : jsstring) :
  Criteria.values (PasswordAnalysis.criteria (EN.analyze p)) = repeat true 8 ->
  PasswordAnalysis.score (EN.analyze p)
  = if (List.length p <? 12)%nat then 75 else 85.
Proof.
  intros Hall. pose proof (values_all_met_nonempty_EN p Hall) as Hne.
  apply (EN_values_all_met p Hne) in Hall.
  destruct Hall as (H1 & H2 & H3 & H4 & H5 & H6 & H7 & H8).
  rewrite EN_score_eq. destruct p as [|c p]; [congruence|].
  change (List.length (c :: p) =? 0)%nat with false. cbv iota.
  rewrite EN_runAllValidations_eq. apply all_met_outputs; assumption.
Qed.

Lemma TR_all_met_exact_score (p : jsstring) :
  Criteria.values (PasswordAnalysis.criteria (TR.analyze p)) = repeat true 8 ->
  PasswordAnalysis.score (TR.analyze p)
  = if (List.length p <? 12)%nat then 75 else 85.
Proof.
  intros Hall. pose proof (values_all_met_nonempty_TR p Hall) as Hne.
  apply (TR_values_all_met p Hne) in Hall.
  destruct Hall as (H1 & H2 & H3 & H4 & H5 & H6 & H7 & H8).
  rewrite TR_score_eq. destruct p as [|c p]; [congruence|].
  change (List.length (c :: p) =? 0)%nat with false. cbv iota.
  rewrite TR_runAllValidations_eq. apply all_met_outputs; assumption.
Qed.

(** X8. A password that meets all eight criteria scores 75 when it has fewer
    than 12 characters and 85 otherwise; its level is then STRONG,
    respectively VERY_STRONG, in the English and in the Turkish build
    alike. *)
Theorem X8_all_criteria_met_score_and_level (p : jsstring) :
  (Criteria.values (PasswordAnalysis.criteria (EN.analyze p)) = repeat true 8
   -> PasswordAnalysis.score (EN.analyze p)
      = (if (List.length p <? 12)%nat then 75 else 85)
      /\ PasswordAnalysis.level (EN.analyze p)
         = (if (List.length p <? 12)%nat then STRONG else VERY_STRONG))
  /\
  (Criteria.values (PasswordAnalysis.criteria (TR.analyze p)) = repeat true 8
   -> PasswordAnalysis.score (TR.analyze p)
      = (if (List.length p <? 12)%nat then 75 else 85)
      /\ PasswordAnalysis.level (TR.analyze p)
         = (if (List.length p <? 12)%nat then STRONG else VERY_STRONG)).
Proof.
  split; intros Hall.
  - pose proof (EN_all_met_exact_score p Hall) as Hs.
    split; [exact Hs|]. rewrite EN_level_of_score, Hs.
    destruct (List.length p <? 12)%nat; reflexivity.
  - pose proof (TR_all_met_exact_score p Hall) as Hs.
    split; [exact Hs|]. rewrite TR_level_of_score, Hs.
    destruct (List.length p <? 12)%nat; reflexivity.
Qed.

End FullMarks.

Lemma X8_all_criteria_met_witness :
  PasswordAnalysis.score (@EN.analyze asciiLower (str "Tr0ub4dor&9Zx")) = 85
  /\ PasswordAnalysis.level (@TR.analyze asciiLower (str "Tr0ub4dor&")) = STRONG.
Proof.
  split.
  - exact (proj1 (proj1 (@X8_all_criteria_met_score_and_level asciiLower
                           (str "Tr0ub4dor&9Zx")) ltac:(reflexivity))).
  - exact (proj2 (proj2 (@X8_all_criteria_met_score_and_level asciiLower
                           (str "Tr0ub4dor&")) ltac:(reflexivity))).
Defined.

Section TopScore.
Context `{LowerCase}.

Lemma max_score_outputs (weak patterns : list jsstring) (p : jsstring) :
  clamp (bonuses (Rules.runAllValidations weak patterns p)
         - penalties (Rules.runAllValidations weak patterns p)) = 85 ->
  Rules.checkLength p = 30 /\ 0 < Rules.hasLowercase p
  /\ 0 < Rules.hasUppercase p /\ 0 < Rules.hasNumbers p
  /\ 0 < Rules.hasSpecialChars p /\ Rules.checkRepeatingChars p = 0
  /\ Rules.checkWeakPassword weak p = 0
  /\ Rules.checkSequentialChars patterns p = 0.
Proof.
  unfold clamp, bonuses, penalties, Rules.runAllValidations.
  cbn [ValidationResults.length ValidationResults.hasLowercase
       ValidationResults.hasUppercase ValidationResults.hasNumbers
       ValidationResults.hasSpecialChars ValidationResults.varietyBonus
       ValidationResults.repeatingCharsPenalty
       ValidationResults.weakPasswordPenalty
       ValidationResults.sequentialCharsPenalty].
  pose proof (checkLength_range p). pose proof (hasLowercase_range p).
  pose proof (hasUppercase_range p). pose proof (hasNumbers_range p).
  pose proof (hasSpecialChars_range p).
  pose proof (checkCharacterVariety_range p).
  pose proof (checkRepeatingChars_range p).
  pose proof (checkWeakPassword_range weak p).
  pose proof (checkSequentialChars_range patterns p).
  lia.
Qed.

(** X7. The top score 85 is reached exactly by the passwords of at least 12
    characters that meet all eight criteria, in both builds; in the Turkish
    build these are exactly the passwords of level VERY_STRONG. *)
Theorem X7_top_score_iff_all_met_and_long (p : jsstring) :
  (PasswordAnalysis.score (EN.analyze p) = 85
   <-> (12 <= List.length p)%nat
       /\ Criteria.values (PasswordAnalysis.criteria (EN.analyze p))
          = repeat true 8)
  /\ (PasswordAnalysis.score (TR.analyze p) = 85
      <-> (12 <= List.length p)%nat
          /\ Criteria.values (PasswordAnalysis.criteria (TR.analyze p))
             = repeat true 8)
  /\ (PasswordAnalysis.level (TR.analyze p) = VERY_STRONG
      <-> PasswordAnalysis.score (TR.analyze p) = 85).
Proof.
  split; [|split].
  - split.
    + intros Hs. assert (Hne : p <> []) by (intros ->; discriminate Hs).
      rewrite EN_score_eq in Hs. destruct p as [|c p]; [congruence|].
      change (List.length (c :: p) =? 0)%nat with false in Hs. cbv iota in Hs.
      rewrite EN_runAllValidations_eq in Hs.
      apply max_score_outputs in Hs.
      destruct Hs as (H30 & Hrest).
      split; [apply checkLength_eq_30; exact H30|].
      apply (EN_values_all_met (c :: p) Hne).
      split; [unfold EN.checkLength; lia | exact Hrest].
    + intros [Hlen Hall]. rewrite (EN_all_met_exact_score p Hall).
      apply Nat.ltb_ge in Hlen. rewrite Hlen. reflexivity.
  - split.
    + intros Hs. assert (Hne : p <> []) by (intros ->; discriminate Hs).
      rewrite TR_score_eq in Hs. destruct p as [|c p]; [congruence|].
      change (List.length (c :: p) =? 0)%nat with false in Hs. cbv iota in Hs.
      rewrite TR_runAllValidations_eq in Hs.
      apply max_score_outputs in Hs.
      destruct Hs as (H30 & Hrest).
      split; [apply checkLength_eq_30; exact H30|].
      apply (TR_values_all_met (c :: p) Hne).
      split; [unfold Validators.checkLength; lia | exact Hrest].
    + intros [Hlen Hall]. rewrite (TR_all_met_exact_score p Hall).
      apply Nat.ltb_ge in Hlen. rewrite Hlen. reflexivity.
  - rewrite TR_level_of_score.
    assert (Hr : 0 <= PasswordAnalysis.score (TR.analyze p) <= 85).
    { rewrite TR_score_eq, TR_runAllValidations_eq.
      rewrite (score_is_clamp Validators.WEAK_PASSWORDS
                 Validators.SEQUENTIAL_PATTERNS p).
      split; [apply clamp_range | apply score_le_85]. }
    destruct (TR_level_bands (PasswordAnalysis.score (TR.analyze p))
                (proj1 Hr)) as (_ & _ & _ & _ & _ & Hvs).
    rewrite Hvs. lia.
Qed.

(** X9. A non-empty password that triggers none of the three penalties
    scores the plain sum of its bonuses, which is at least 5, so its level is
    not EMPTY: a non-empty password at level EMPTY has always failed one of
    the criteria [noRepeatingChars], [notWeakPassword],
    [noSequentialChars]. *)
Theorem X9_no_penalty_no_empty_level (p : jsstring) :
  p <> [] ->
  (let a := EN.analyze p in
   let c := PasswordAnalysis.criteria a in
   Criteria.noRepeatingChars c && Criteria.notWeakPassword c
     && Criteria.noSequentialChars c = true ->
   PasswordAnalysis.score a = bonuses (EN.runAllValidations p)
   /\ 5 <= PasswordAnalysis.score a
   /\ PasswordAnalysis.level a <> EMPTY)
  /\
  (let a := TR.analyze p in
   let c := PasswordAnalysis.criteria a in
   Criteria.noRepeatingChars c && Criteria.notWeakPassword c
     && Criteria.noSequentialChars c = true ->
   PasswordAnalysis.score a = bonuses (Validators.runAllValidations p)
   /\ 5 <= PasswordAnalysis.score a
   /\ PasswordAnalysis.level a <> EMPTY).
Proof.
  intros Hne. cbv zeta.
  assert (Hlen : 5 <= Rules.checkLength p).
  { unfold Rules.checkLength. destruct p as [|c p]; [congruence|].
    change (List.length (c :: p) =? 0)%nat with false. cbv iota.
    repeat match goal with |- context [if ?b then _ else _] => destruct b end;
      lia. }
  pose proof (hasLowercase_range p). pose proof (hasUppercase_range p).
  pose proof (hasNumbers_range p). pose proof (hasSpecialChars_range p).
  pose proof (checkCharacterVariety_range p).
  pose proof (checkLength_range p).
  split.
  - rewrite EN_level_of_score, (EN_criteria_eq p Hne), EN_score_eq.
    destruct p as [|c p]; [congruence|].
    change (List.length (c :: p) =? 0)%nat with false. cbv iota.
    cbn [Criteria.noRepeatingChars Criteria.notWeakPassword
         Criteria.noSequentialChars].
    rewrite !andb_true_iff, !Z.eqb_eq. intros [[Hr Hw] Hs].
    assert (E : clamp (bonuses (EN.runAllValidations (c :: p))
                       - penalties (EN.runAllValidations (c :: p)))
                = bonuses (EN.runAllValidations (c :: p))
                /\ 5 <= bonuses (EN.runAllValidations (c :: p))).
    { unfold clamp, penalties, bonuses, EN.runAllValidations.
      cbn [ValidationResults.length ValidationResults.hasLowercase
           ValidationResults.hasUppercase ValidationResults.hasNumbers
           ValidationResults.hasSpecialChars ValidationResults.varietyBonus
           ValidationResults.repeatingCharsPenalty
           ValidationResults.weakPasswordPenalty
           ValidationResults.sequentialCharsPenalty].
      rewrite Hr, Hw, Hs.
      unfold EN.checkLength, EN.hasLowercase, EN.hasUppercase, EN.hasNumbers,
        EN.hasSpecialChars, EN.checkCharacterVariety. lia. }
    destruct E as [E1 E2]. rewrite E1.
    split; [reflexivity|]. split; [exact E2|].
    intros Hl.
    destruct (EN_level_bands (bonuses (EN.runAllValidations (c :: p))))
      as (He & _); [lia|]. apply He in Hl. lia.
  - rewrite TR_level_of_score, (TR_criteria_eq p Hne), TR_score_eq.
    destruct p as [|c p]; [congruence|].
    change (List.length (c :: p) =? 0)%nat with false. cbv iota.
    cbn [Criteria.noRepeatingChars Criteria.notWeakPassword
         Criteria.noSequentialChars].
    rewrite !andb_true_iff, !Z.eqb_eq. intros [[Hr Hw] Hs].
    assert (E : clamp (bonuses (Validators.runAllValidations (c :: p))
                       - penalties (Validators.runAllValidations (c :: p)))
                = bonuses (Validators.runAllValidations (c :: p))
                /\ 5 <= bonuses (Validators.runAllValidations (c :: p))).
    { unfold clamp, penalties, bonuses, Validators.runAllValidations.
      cbn [ValidationResults.length ValidationResults.hasLowercase
           ValidationResults.hasUppercase ValidationResults.hasNumbers
           ValidationResults.hasSpecialChars ValidationResults.varietyBonus
           ValidationResults.repeatingCharsPenalty
           ValidationResults.weakPasswordPenalty
           ValidationResults.sequentialCharsPenalty].
      rewrite Hr, Hw, Hs.
      unfold Validators.checkLength, Validators.hasLowercase,
        Validators.hasUppercase, Validators.hasNumbers,
        Validators.hasSpecialChars, Validators.checkCharacterVariety. lia. }
    destruct E as [E1 E2]. rewrite E1.
    split; [reflexivity|]. split; [exact E2|].
    intros Hl.
    destruct (TR_level_bands (bonuses (Validators.runAllValidations (c :: p))))
      as (He & _); [lia|]. apply He in Hl. lia.
Qed.

End TopScore.

Lemma X9_no_penalty_witness :
  PasswordAnalysis.level (@EN.analyze asciiLower (str "x")) <> EMPTY.
Proof.
  exact (proj2 (proj2 (proj1 (@X9_no_penalty_no_empty_level asciiLower
                                (str "x") ltac:(discriminate))
                         ltac:(reflexivity)))).
Defined.

(** ** The weak-password rule, without its length guard *)

Lemma weak_entries_long :
  (forall w, In w EN.weakPasswords -> (4 <= List.length w)%nat)
  /\ (forall w, In w Validators.WEAK_PASSWORDS -> (4 <= List.length w)%nat).
Proof.
  assert (He : forallb (fun w : jsstring => (4 <=? List.length w)%nat)
                 EN.weakPasswords = true) by reflexivity.
  assert (Ht : forallb (fun w : jsstring => (4 <=? List.length w)%nat)
                 Validators.WEAK_PASSWORDS = true) by reflexivity.
  rewrite forallb_forall in He, Ht.
  split; intros w Hw; apply Nat.leb_le; auto.
Qed.

Lemma occursIn_refl (s : jsstring) : occursIn s s.
Proof. exists [], []. rewrite app_nil_r. reflexivity. Qed.

Section WeakOccurrence.
Context `{LowerCase}.

Lemma checkWeakPassword_pos_iff (weak : list jsstring) (p : jsstring) :
  0 < Rules.checkWeakPassword weak p
  <-> In (toLowerCase p) weak \/ containsListedWeak weak (toLowerCase p).
Proof.
  unfold Rules.checkWeakPassword.
  destruct (arrayIncludes weak (toLowerCase p)) eqn:Ea.
  - apply arrayIncludes_In in Ea. split; [tauto | lia].
  - destruct (Rules.partialMatch (toLowerCase p) weak) eqn:Ep.
    + apply partialMatch_spec in Ep. split; [tauto | lia].
    + split; [lia|]. intros [Hin | Hc].
      * apply arrayIncludes_In in Hin. congruence.
      * apply partialMatch_spec in Hc. congruence.
Qed.

Lemma weak_occurrence_iff (weak : list jsstring) (p : jsstring) :
  (forall w, In w weak -> (4 <= List.length w)%nat) ->
  (0 < Rules.checkWeakPassword weak p
   <-> exists w, In w weak /\ occursIn w (toLowerCase p)).
Proof.
  intros Hlong. rewrite checkWeakPassword_pos_iff. split.
  - intros [Hin | (w & Hin & _ & Ho)].
    + exists (toLowerCase p). split; [exact Hin | apply occursIn_refl].
    + exists w. split; assumption.
  - intros (w & Hin & Ho). right. exists w.
    split; [exact Hin|]. split; [apply Hlong; exact Hin | exact Ho].
Qed.

(** X10. Every entry of either weak-password list has at least 4
    characters, so the length guard of the partial match never excludes an
    entry: for a non-empty password the weak penalty is positive, and the
    criterion [notWeakPassword] false, exactly when some entry of the
    build's list occurs in the lower-cased password. *)
Theorem X10_weak_iff_listed_entry_occurs (p : jsstring) :
  p <> [] ->
  (0 < EN.checkWeakPassword p
   <-> exists w, In w EN.weakPasswords /\ occursIn w (toLowerCase p))
  /\ (Criteria.notWeakPassword (PasswordAnalysis.criteria (EN.analyze p))
      = false
      <-> exists w, In w EN.weakPasswords /\ occursIn w (toLowerCase p))
  /\ (0 < Validators.checkWeakPassword p
      <-> exists w, In w Validators.WEAK_PASSWORDS
                    /\ occursIn w (toLowerCase p))
  /\ (Criteria.notWeakPassword (PasswordAnalysis.criteria (TR.analyze p))
      = false
      <-> exists w, In w Validators.WEAK_PASSWORDS
                    /\ occursIn w (toLowerCase p)).
Proof.
  intros Hne. destruct weak_entries_long as [Le Lt].
  pose proof (weak_occurrence_iff EN.weakPasswords p Le) as He.
  pose proof (weak_occurrence_iff Validators.WEAK_PASSWORDS p Lt) as Ht.
  pose proof (checkWeakPassword_range EN.weakPasswords p) as Re.
  pose proof (checkWeakPassword_range Validators.WEAK_PASSWORDS p) as Rt.
  change (Rules.checkWeakPassword EN.weakPasswords p)
    with (EN.checkWeakPassword p) in *.
  change (Rules.checkWeakPassword Validators.WEAK_PASSWORDS p)
    with (Validators.checkWeakPassword p) in *.
  rewrite (EN_criteria_eq p Hne), (TR_criteria_eq p Hne).
  cbn [Criteria.notWeakPassword]. rewrite !Z.eqb_neq.
  rewrite <- He, <- Ht. repeat split; intros; lia.
Qed.

End WeakOccurrence.

Lemma X10_weak_occurrence_witness :
  0 < @EN.checkWeakPassword asciiLower (str "MyPassword!")
  <-> exists w, In w EN.weakPasswords
                /\ occursIn w (@toLowerCase asciiLower (str "MyPassword!")).
Proof.
  exact (proj1 (@X10_weak_iff_listed_entry_occurs asciiLower
                  (str "MyPassword!") ltac:(discriminate))).
Defined.

(** ** The Turkish build never rates higher than the English build *)

Lemma level_TR_le_EN (s : Z) :
  0 <= s ->
  (levelRank (TR.determineStrengthLevel s)
   <= levelRank (EN.determineStrengthLevel s))%nat.
Proof.
  intros Hs. unfold TR.determineStrengthLevel, EN.determineStrengthLevel.
  destruct (Z.eqb_spec s 0); [simpl; lia|].
  repeat match goal with
         | |- context [?a <? ?b] => destruct (Z.ltb_spec a b)
         end; simpl; lia.
Qed.

Section BuildsRated.
Context `{LowerCase}.

(** X11. For every password the score of the Turkish build is at most the
    score of the English build, and so is its level: the Turkish build has
    the longer word lists and the higher level thresholds. *)
Theorem X11_turkish_build_never_rates_higher (p : jsstring) :
  PasswordAnalysis.score (TR.analyze p) <= PasswordAnalysis.score (EN.analyze p)
  /\ (levelRank (PasswordAnalysis.level (TR.analyze p))
      <= levelRank (PasswordAnalysis.level (EN.analyze p)))%nat.
Proof.
  assert (Hs : 0 <= PasswordAnalysis.score (TR.analyze p)
               <= PasswordAnalysis.score (EN.analyze p)).
  { rewrite TR_score_eq, EN_score_eq.
    destruct (List.length p =? 0)%nat; [lia|].
    split; [apply clamp_range|].
    pose proof (weak_penalty_EN_le_TR p).
    pose proof (sequential_penalty_EN_le_TR p).
    unfold clamp, bonuses, penalties, EN.runAllValidations,
      Validators.runAllValidations.
    cbn [ValidationResults.length ValidationResults.hasLowercase
         ValidationResults.hasUppercase ValidationResults.hasNumbers
         ValidationResults.hasSpecialChars ValidationResults.varietyBonus
         ValidationResults.repeatingCharsPenalty
         ValidationResults.weakPasswordPenalty
         ValidationResults.sequentialCharsPenalty].
    unfold EN.checkLength, EN.hasLowercase, EN.hasUppercase, EN.hasNumbers,
      EN.hasSpecialChars, EN.checkCharacterVariety, EN.checkRepeatingChars,
      Validators.checkLength, Validators.hasLowercase,
      Validators.hasUppercase, Validators.hasNumbers,
      Validators.hasSpecialChars, Validators.checkCharacterVariety,
      Validators.checkRepeatingChars.
    lia. }
  split; [apply Hs|].
  rewrite TR_level_of_score, EN_level_of_score.
  etransitivity.
  - apply (TR_level_monotone _ (PasswordAnalysis.score (EN.analyze p))). lia.
  - apply level_TR_le_EN. lia.
Qed.

End BuildsRated.

(** ** The crack-time estimate of the English build *)

Lemma trimStart_nil_iff (s : jsstring) :
  trimStart s = [] <-> isBlank s.
Proof.
  unfold isBlank. induction s as [|c s IH]; cbn [trimStart].
  - split; [constructor | reflexivity].
  - destruct (isWhiteSpace c) eqn:E.
    + rewrite IH. split.
      * intros Hs. constructor; assumption.
      * intros Hs. inversion Hs; assumption.
    + split; [discriminate|]. intros Hs. inversion Hs; congruence.
Qed.

Lemma trimStart_blank_nil (s : jsstring) :
  isBlank (trimStart s) -> trimStart s = [].
Proof.
  unfold isBlank. induction s as [|c s IH]; cbn [trimStart]; [reflexivity|].
  destruct (isWhiteSpace c) eqn:E; [exact IH|].
  intros Hs. inversion Hs; congruence.
Qed.

Lemma trim_nil_iff (s : jsstring) : trim s = [] <-> isBlank s.
Proof.
  unfold trim, trimEnd. split.
  - intros E. apply trimStart_nil_iff. apply trimStart_blank_nil.
    apply (f_equal (@rev Z)) in E. rewrite rev_involutive in E.
    cbn [rev] in E. apply trimStart_nil_iff in E.
    unfold isBlank in *. rewrite List.Forall_forall in *.
    intros c Hc. apply E. apply in_rev in Hc. exact Hc.
  - intros Hb. apply trimStart_nil_iff in Hb. rewrite Hb. reflexivity.
Qed.

Lemma blank_test (p : jsstring) :
  (List.length p =? 0)%nat || (List.length (trim p) =? 0)%nat = true
  <-> isBlank p.
Proof.
  rewrite orb_true_iff, !Nat.eqb_eq. split.
  - intros [E | E].
    + destruct p; [constructor | discriminate].
    + apply trim_nil_iff. destruct (trim p); [reflexivity | discriminate].
  - intros Hb. right. apply trim_nil_iff in Hb. rewrite Hb. reflexivity.
Qed.

Lemma estimate_not_blank (p : jsstring) (score : Z) :
  ~ isBlank p -> In (EN.estimateTimeToCrack p score) crackLabels.
Proof.
  intros Hnb. unfold EN.estimateTimeToCrack.
  destruct ((List.length p =? 0)%nat || (List.length (trim p) =? 0)%nat)
    eqn:E; [apply blank_test in E; contradiction|].
  unfold crackLabels.
  repeat match goal with |- context [if ?b then _ else _] => destruct b end;
    simpl; tauto.
Qed.

(** X12. The crack-time estimate answers "Please enter a password" exactly
    for the empty password and for passwords made of white space only,
    whatever the score; every other password gets one of the ten duration
    labels. *)
Theorem X12_estimate_sentinel_iff_blank (p : jsstring) (score : Z) :
  (EN.estimateTimeToCrack p score = "Please enter a password"%string
   <-> isBlank p)
  /\ (~ isBlank p -> In (EN.estimateTimeToCrack p score) crackLabels).
Proof.
  split; [|apply estimate_not_blank].
  split.
  - intros E.
    destruct ((List.length p =? 0)%nat || (List.length (trim p) =? 0)%nat)
      eqn:Eb; [apply blank_test; exact Eb|].
    exfalso. unfold EN.estimateTimeToCrack in E. rewrite Eb in E.
    repeat match type of E with
           | context [if ?b then _ else _] => destruct b
           end; discriminate.
  - intros Hb. apply blank_test in Hb.
    unfold EN.estimateTimeToCrack. rewrite Hb. reflexivity.
Qed.

(** X13. For a fixed password the estimate never gets shorter when the
    score grows: in the order Instantly, Seconds, Minutes, Hours, Days,
    Weeks, Months, Years, Years to decades, Decades, a larger score gives
    the same or a later label. *)
Theorem X13_estimate_monotone_in_score (p : jsstring) (s1 s2 : Z) :
  s1 <= s2 ->
  (crackRank (EN.estimateTimeToCrack p s1)
   <= crackRank (EN.estimateTimeToCrack p s2))%nat.
Proof.
  intros Hs. unfold EN.estimateTimeToCrack.
  destruct ((List.length p =? 0)%nat || (List.length (trim p) =? 0)%nat);
    [lia|].
  destruct (List.length p <? 6)%nat;
    [rewrite !orb_true_r; lia | rewrite !orb_false_r].
  destruct (16 <=? List.length p)%nat; destruct (12 <=? List.length p)%nat;
    repeat match goal with
           | |- context [?a <? ?b] => destruct (Z.ltb_spec a b)
           end; try lia; vm_compute; lia.
Qed.

Lemma X13_estimate_monotone_witness :
  (crackRank (EN.estimateTimeToCrack (str "abcdefgh") 35)
   <= crackRank (EN.estimateTimeToCrack (str "abcdefgh") 75))%nat.
Proof.
  apply (X13_estimate_monotone_in_score (str "abcdefgh") 35 75). lia.
Defined.

Section EstimateOfAnalysis.
Context `{LowerCase}.

Lemma EN_score_range (p : jsstring) :
  0 <= PasswordAnalysis.score (EN.analyze p) <= 85.
Proof.
  rewrite EN_score_eq, EN_runAllValidations_eq.
  rewrite (score_is_clamp EN.weakPasswords EN.sequentialPatterns p).
  split; [apply clamp_range | apply score_le_85].
Qed.

Lemma EN_score_80_long (p : jsstring) :
  80 <= PasswordAnalysis.score (EN.analyze p) -> (12 <= List.length p)%nat.
Proof.
  rewrite EN_score_eq. destruct (List.length p =? 0)%nat; [lia|].
  rewrite EN_runAllValidations_eq. intros Hs.
  apply checkLength_eq_30.
  pose proof (penalties_range EN.weakPasswords EN.sequentialPatterns p).
  pose proof (checkLength_values p) as Hv. simpl in Hv.
  pose proof (hasLowercase_range p). pose proof (hasUppercase_range p).
  pose proof (hasNumbers_range p). pose proof (hasSpecialChars_range p).
  pose proof (checkCharacterVariety_range p).
  set (pen := penalties _) in *. clearbody pen.
  unfold clamp, bonuses, Rules.runAllValidations in Hs.
  cbn [ValidationResults.length ValidationResults.hasLowercase
       ValidationResults.hasUppercase ValidationResults.hasNumbers
       ValidationResults.hasSpecialChars ValidationResults.varietyBonus] in Hs.
  lia.
Qed.

(** X14. When the estimate is computed from the score of the analysis of
    the same password, as the interface does, the labels "Years to decades"
    and "Decades" are never produced, since no score reaches 90; the label
    is "Years" exactly for the non-blank passwords of score 80 or more. *)
Theorem X14_estimate_of_own_score (p : jsstring) :
  let label :=
    EN.estimateTimeToCrack p (PasswordAnalysis.score (EN.analyze p)) in
  label <> "Decades"%string
  /\ label <> "Years to decades"%string
  /\ (label = "Years"%string
      <-> ~ isBlank p /\ 80 <= PasswordAnalysis.score (EN.analyze p)).
Proof.
  cbv zeta. pose proof (EN_score_range p) as Hr.
  pose proof (EN_score_80_long p) as Hlong.
  pose proof (blank_test p) as Hb.
  unfold EN.estimateTimeToCrack.
  destruct ((List.length p =? 0)%nat || (List.length (trim p) =? 0)%nat).
  { split; [discriminate|]. split; [discriminate|].
    split; [discriminate|]. intros [Hnb _]. exfalso. apply Hnb, Hb.
    reflexivity. }
  assert (Hnb : ~ isBlank p) by (intros Hx; apply Hb in Hx; discriminate).
  destruct (Nat.ltb_spec (List.length p) 6).
  { rewrite orb_true_r. split; [discriminate|]. split; [discriminate|].
    split; [discriminate|]. intros [_ H80]. apply Hlong in H80. lia. }
  rewrite orb_false_r.
  repeat match goal with
         | |- context [?a <? ?b] => destruct (Z.ltb_spec a b)
         end; try lia;
    (split; [discriminate|]; split; [discriminate|];
     split; [first [discriminate | intros _; split; [exact Hnb | lia]]
            | intros [_ H80]; first [reflexivity | lia]]).
Qed.

End EstimateOfAnalysis.

(** ** The random password generator *)

Lemma randomBelow_spec (random : nat -> Q) (n : Z) (k : nat) :
  inUnitInterval random -> 0 < n ->
  exists i, Main.randomBelow random n k = (i, S k) /\ 0 <= i < n.
Proof.
  intros Hr Hn.
  unfold Main.randomBelow, Main.bind, Main.Math_random, Main.ret.
  eexists. split; [reflexivity|].
  destruct (Hr k) as [H0 H1].
  assert (Hn' : (0 < inject_Z n)%Q).
  { change 0%Q with (inject_Z 0). rewrite <- Zlt_Qlt. exact Hn. }
  split.
  - rewrite <- (Qfloor_Z 0). apply Qfloor_resp_le.
    change (inject_Z 0) with 0%Q.
    apply Qmult_le_0_compat; [exact H0 | apply Qlt_le_weak; exact Hn'].
  - rewrite Zlt_Qlt. eapply Qle_lt_trans; [apply Qfloor_le|].
    assert (Hlt : (random k * inject_Z n < 1 * inject_Z n)%Q)
      by (apply Qmult_lt_compat_r; assumption).
    rewrite Qmult_1_l in Hlt. exact Hlt.
Qed.

Lemma getRandomChar_spec (random : nat -> Q) (s : jsstring) (k : nat) :
  inUnitInterval random -> s <> [] ->
  exists c, Main.getRandomChar random s k = (Some c, S k) /\ In c s.
Proof.
  intros Hr Hs. unfold Main.getRandomChar, Main.bind.
  destruct (randomBelow_spec random (Z.of_nat (List.length s)) k Hr)
    as (i & E & Hi).
  { destruct s; [congruence | cbn [List.length]; lia]. }
  rewrite E. unfold Main.ret, Main.charAt.
  destruct (Z.ltb_spec i 0); [lia|].
  destruct (s !! Z.to_nat i) as [c|] eqn:El.
  - exists c. split; [reflexivity|].
    apply list_elem_of_In. eapply list_elem_of_lookup_2. exact El.
  - apply lookup_ge_None in El. lia.
Qed.

Lemma lookup_map_Some (l : list Z) (i : nat) :
  (map Some l) !! i
  = match l !! i with Some x => Some (Some x) | None => None end.
Proof.
  revert i; induction l as [|a l IH]; intros [|i]; try reflexivity.
  apply IH.
Qed.

Lemma insert_map_Some (l : list Z) (i : nat) (x : Z) :
  <[i:=Some x]> (map Some l) = map Some (<[i:=x]> l).
Proof.
  revert i; induction l as [|a l IH]; intros [|i]; try reflexivity.
  cbn. f_equal. apply IH.
Qed.

Lemma join_map_Some (l : list Z) : Main.join (map Some l) = l.
Proof.
  unfold Main.join. induction l as [|a l IH]; [reflexivity|].
  cbn. f_equal. exact IH.
Qed.

Lemma insert_head_perm (l : list Z) :
  forall (j : nat) (a y : Z),
    l !! j = Some y -> Permutation (y :: <[j:=a]> l) (a :: l).
Proof.
  induction l as [|b l IH]; intros [|j] a y Hl; try discriminate.
  - injection Hl as ->. apply perm_swap.
  - cbn in Hl. cbn [insert list_insert].
    change (<[S j:=a]> (b :: l)) with (b :: <[j:=a]> l).
    etransitivity; [apply perm_swap|].
    etransitivity; [apply perm_skip, (IH j a y Hl)|]. apply perm_swap.
Qed.

Lemma swap_perm (l : list Z) :
  forall (i j : nat) (x y : Z),
    l !! i = Some y -> l !! j = Some x ->
    Permutation (<[j:=y]> (<[i:=x]> l)) l.
Proof.
  induction l as [|a l IH]; intros [|i] [|j] x y Hi Hj; try discriminate.
  - injection Hi as <-. injection Hj as <-. reflexivity.
  - injection Hi as <-. cbn in Hj.
    change (<[S j:=a]> (<[0%nat:=x]> (a :: l))) with (x :: <[j:=a]> l).
    apply insert_head_perm. exact Hj.
  - injection Hj as <-. cbn in Hi.
    change (<[0%nat:=y]> (<[S i:=a]> (a :: l))) with (y :: <[i:=a]> l).
    apply insert_head_perm. exact Hi.
  - cbn in Hi, Hj.
    change (<[S j:=y]> (<[S i:=x]> (a :: l)))
      with (a :: <[j:=y]> (<[i:=x]> l)).
    apply perm_skip. apply IH; assumption.
Qed.

Lemma shuffleLoop_spec (random : nat -> Q) :
  inUnitInterval random ->
  forall (i : nat) (l : list Z) (k : nat),
    (i < List.length l \/ i = 0)%nat ->
    exists l',
      Main.shuffleLoop random i (map Some l) k = (map Some l', (k + i)%nat)
      /\ Permutation l' l.
Proof.
  intros Hr. induction i as [|i IH]; intros l k Hi.
  - exists l. split; [|reflexivity].
    cbn [Main.shuffleLoop]. unfold Main.ret. f_equal. lia.
  - assert (Hlt : (S i < List.length l)%nat) by lia.
    cbn [Main.shuffleLoop]. unfold Main.bind at 1.
    destruct (randomBelow_spec random (Z.of_nat (S i) + 1) k Hr)
      as (j & E & Hj); [lia|].
    rewrite E.
    destruct (lookup_lt_is_Some_2 l (S i) Hlt) as [y Hy].
    destruct (lookup_lt_is_Some_2 l (Z.to_nat j) ltac:(lia)) as [x Hx].
    assert (Egj : Main.arrayGet (map Some l) j = Some x).
    { unfold Main.arrayGet. destruct (Z.ltb_spec j 0); [lia|].
      rewrite lookup_map_Some, Hx. reflexivity. }
    assert (Egi : Main.arrayGet (map Some l) (Z.of_nat (S i)) = Some y).
    { unfold Main.arrayGet. destruct (Z.ltb_spec (Z.of_nat (S i)) 0); [lia|].
      rewrite Nat2Z.id, lookup_map_Some, Hy. reflexivity. }
    rewrite Egj, Egi.
    assert (Es1 : Main.arraySet (map Some l) (Z.of_nat (S i)) (Some x)
                  = map Some (<[S i:=x]> l)).
    { unfold Main.arraySet. destruct (Z.ltb_spec (Z.of_nat (S i)) 0); [lia|].
      rewrite Nat2Z.id, length_map.
      destruct (Nat.ltb_spec (S i) (List.length l)); [|lia].
      apply insert_map_Some. }
    rewrite Es1.
    assert (Es2 : Main.arraySet (map Some (<[S i:=x]> l)) j (Some y)
                  = map Some (<[Z.to_nat j:=y]> (<[S i:=x]> l))).
    { unfold Main.arraySet. destruct (Z.ltb_spec j 0); [lia|].
      rewrite length_map, length_insert.
      destruct (Nat.ltb_spec (Z.to_nat j) (List.length l)); [|lia].
      apply insert_map_Some. }
    rewrite Es2.
    destruct (IH (<[Z.to_nat j:=y]> (<[S i:=x]> l)) (S k)) as (l' & El & Hp).
    { rewrite !length_insert. lia. }
    exists l'. split.
    + rewrite El. f_equal. lia.
    + etransitivity; [exact Hp|]. apply swap_perm; assumption.
Qed.

Lemma shuffleString_spec (random : nat -> Q) (s : jsstring) (k : nat) :
  inUnitInterval random ->
  exists s',
    Main.shuffleString random s k = (s', (k + (List.length s - 1))%nat)
    /\ Permutation s' s.
Proof.
  intros Hr. unfold Main.shuffleString, Main.split, Main.bind.
  rewrite length_map.
  destruct (shuffleLoop_spec random Hr (List.length s - 1) s k)
    as (l' & E & Hp); [lia|].
  rewrite E. exists l'. split; [|exact Hp].
  unfold Main.ret. rewrite join_map_Some. reflexivity.
Qed.



Lemma fillLoop_spec (random : nat -> Q) :
  inUnitInterval random ->
  forall (n : nat) (password : jsstring) (k : nat),
    exists extra,
      Main.fillLoop random n password k = (password ++ extra, (k + n)%nat)
      /\ List.length extra = n
      /\ (forall c, In c extra -> In c Main.allChars).
Proof.
  intros Hr. induction n as [|n IH]; intros password k.
  - exists []. cbn [Main.fillLoop]. unfold Main.ret.
    rewrite app_nil_r, Nat.add_0_r. repeat split. intros c [].
  - cbn [Main.fillLoop]. unfold Main.bind at 1.
    destruct (getRandomChar_spec random Main.allChars k Hr)
      as (c & E & Hc); [discriminate|].
    rewrite E. cbn [Main.append].
    destruct (IH (password ++ [c]) (S k)) as (extra & El & Hlen & Hall).
    exists (c :: extra). rewrite El, <- app_assoc. cbn [app List.length].
    split; [f_equal; lia|]. split; [lia|].
    intros c' [<- | Hin]; [exact Hc | apply Hall; exact Hin].
Qed.

Lemma generate_spec (random : nat -> Q) (length : Z) (k : nat) :
  inUnitInterval random ->
  exists c1 c2 c3 c4 extra,
    Permutation (fst (Main.generateRandomPassword random length k))
      ([c1; c2; c3; c4] ++ extra)
    /\ In c1 Main.lowercase /\ In c2 Main.uppercase
    /\ In c3 Main.numbers /\ In c4 Main.special
    /\ List.length extra = Z.to_nat (length - 4)
    /\ (forall c, In c extra -> In c Main.allChars).
Proof.
  intros Hr. unfold Main.generateRandomPassword.
  unfold Main.bind at 1.
  destruct (getRandomChar_spec random Main.lowercase k Hr)
    as (c1 & E1 & H1); [discriminate|]. rewrite E1.
  unfold Main.bind at 1.
  destruct (getRandomChar_spec random Main.uppercase (S k) Hr)
    as (c2 & E2 & H2); [discriminate|]. rewrite E2.
  unfold Main.bind at 1.
  destruct (getRandomChar_spec random Main.numbers (S (S k)) Hr)
    as (c3 & E3 & H3); [discriminate|]. rewrite E3.
  unfold Main.bind at 1.
  destruct (getRandomChar_spec random Main.special (S (S (S k))) Hr)
    as (c4 & E4 & H4); [discriminate|]. rewrite E4.
  cbn [Main.append app]. unfold Main.bind at 1.
  destruct (fillLoop_spec random Hr (Z.to_nat (length - 4)) [c1; c2; c3; c4]
              (S (S (S (S k))))) as (extra & El & Hlen & Hall).
  rewrite El.
  destruct (shuffleString_spec random ([c1; c2; c3; c4] ++ extra)
              (S (S (S (S k))) + Z.to_nat (length - 4))%nat Hr)
    as (s' & Es & Hp).
  rewrite Es. cbn [fst].
  exists c1, c2, c3, c4, extra. repeat split; assumption.
Qed.

Lemma charsets_in_allChars :
  (forall c, In c Main.lowercase -> In c Main.allChars)
  /\ (forall c, In c Main.uppercase -> In c Main.allChars)
  /\ (forall c, In c Main.numbers -> In c Main.allChars)
  /\ (forall c, In c Main.special -> In c Main.allChars).
Proof.
  unfold Main.allChars. repeat split; intros c Hc; rewrite !in_app_iff; tauto.
Qed.



Lemma charset_classes :
  (forall c, In c Main.lowercase -> isLower c = true)
  /\ (forall c, In c Main.uppercase -> isUpper c = true)
  /\ (forall c, In c Main.numbers -> isDigit c = true)
  /\ (forall c, In c Main.special -> isListedSpecial c = true).
Proof.
  assert (H1 : forallb isLower Main.lowercase = true) by reflexivity.
  assert (H2 : forallb isUpper Main.uppercase = true) by reflexivity.
  assert (H3 : forallb isDigit Main.numbers = true) by reflexivity.
  assert (H4 : forallb isListedSpecial Main.special = true) by reflexivity.
  rewrite forallb_forall in H1, H2, H3, H4. auto.
Qed.

Section GeneratedAnalysed.
Context `{LowerCase}.

Lemma full_bonuses (weak patterns : list jsstring) (p : jsstring) :
  (12 <= List.length p)%nat ->
  test isLower p = true -> test isUpper p = true ->
  test isDigit p = true -> test isListedSpecial p = true ->
  bonuses (Rules.runAllValidations weak patterns p) = 85.
Proof.
  intros Hlen Hl Hu Hd Hs.
  unfold bonuses, Rules.runAllValidations.
  cbn [ValidationResults.length ValidationResults.hasLowercase
       ValidationResults.hasUppercase ValidationResults.hasNumbers
       ValidationResults.hasSpecialChars ValidationResults.varietyBonus].
  assert (Hv : Rules.checkCharacterVariety p = 10).
  { apply variety_by_tests. repeat split; try assumption.
    apply test_listed_nonalnum. exact Hs. }
  apply checkLength_eq_30 in Hlen.
  unfold Rules.hasLowercase, Rules.hasUppercase, Rules.hasNumbers,
    Rules.hasSpecialChars.
  rewrite Hl, Hu, Hd, Hs, Hv, Hlen. reflexivity.
Qed.

Lemma generated_tests (random : nat -> Q) (length : Z) (k : nat) :
  inUnitInterval random ->
  let password := fst (Main.generateRandomPassword random length k) in
  password <> []
  /\ Z.of_nat (List.length password) = Z.max length 4
  /\ test isLower password = true /\ test isUpper password = true
  /\ test isDigit password = true /\ test isListedSpecial password = true.
Proof.
  intros Hr. cbv zeta.
  destruct (generate_spec random length k Hr)
    as (c1 & c2 & c3 & c4 & extra & Hp & H1 & H2 & H3 & H4 & Hlen & Hall).
  destruct charset_classes as (C1 & C2 & C3 & C4).
  pose proof (Permutation_length Hp) as Hl.
  rewrite length_app, Hlen in Hl. cbn [List.length] in Hl.
  split.
  { intros E. rewrite E in Hl. cbn [List.length] in Hl. lia. }
  split; [lia|].
  symmetry in Hp. unfold test. rewrite !existsb_exists.
  repeat split.
  - exists c1. split; [apply (Permutation_in _ Hp); simpl; tauto | auto].
  - exists c2. split; [apply (Permutation_in _ Hp); simpl; tauto | auto].
  - exists c3. split; [apply (Permutation_in _ Hp); simpl; tauto | auto].
  - exists c4. split; [apply (Permutation_in _ Hp); simpl; tauto | auto].
Qed.


End GeneratedAnalysed.


(** ** The closing line of the suggestions *)

Lemma unmet_subset (flags : list bool) :
  forall (texts : list string) (x : string),
    In x (unmet flags texts) -> In x texts.
Proof.
  induction flags as [|b flags IH]; intros [|t texts] x Hin;
    try (destruct Hin; fail).
  cbn [unmet] in Hin. destruct b.
  - right. apply (IH texts x Hin).
  - destruct Hin as [<- | Hin]; [left; reflexivity | right; apply (IH _ _ Hin)].
Qed.

Lemma not_in_by_eqb (x : string) (l : list string) :
  existsb (String.eqb x) l = false -> ~ In x l.
Proof.
  intros E Hin. assert (Ht : existsb (String.eqb x) l = true).
  { apply existsb_exists. exists x. split; [exact Hin | apply String.eqb_refl]. }
  congruence.
Qed.

Section ClosingLine.
Context `{LowerCase}.

(** X18. The suggestion "Excellent! Your password is very secure." (in the
    Turkish build its counterpart) is shown exactly for the passwords that
    score 85; their suggestions are then the two closing lines and nothing
    else. *)
Theorem X18_excellent_suggestion_iff_top_score (p : jsstring) :
  (In "Excellent! Your password is very secure."%string
      (PasswordAnalysis.suggestions (EN.analyze p))
   <-> PasswordAnalysis.score (EN.analyze p) = 85)
  /\ (PasswordAnalysis.score (EN.analyze p) = 85 ->
      PasswordAnalysis.suggestions (EN.analyze p)
      = ["Good job! Your password has decent security.";
         "Excellent! Your password is very secure."]%string)
  /\ (In "Mükemmel! Parolanız çok güçlü görünüyor."%string
         (PasswordAnalysis.suggestions (TR.analyze p))
      <-> PasswordAnalysis.score (TR.analyze p) = 85)
  /\ (PasswordAnalysis.score (TR.analyze p) = 85 ->
      PasswordAnalysis.suggestions (TR.analyze p)
      = ["Güzel! Parolanız iyi bir güvenlik seviyesine sahip.";
         "Mükemmel! Parolanız çok güçlü görünüyor."]%string).
Proof.
  assert (HE : PasswordAnalysis.score (EN.analyze p) = 85 ->
      PasswordAnalysis.suggestions (EN.analyze p)
      = ["Good job! Your password has decent security.";
         "Excellent! Your password is very secure."]%string).
  { intros Hs. assert (Hne : p <> []) by (intros ->; discriminate Hs).
    assert (Hall : Criteria.values (PasswordAnalysis.criteria (EN.analyze p))
                   = repeat true 8).
    { rewrite EN_score_eq in Hs. destruct p as [|c p]; [congruence|].
      change (List.length (c :: p) =? 0)%nat with false in Hs.
      cbv iota in Hs. rewrite EN_runAllValidations_eq in Hs.
      apply max_score_outputs in Hs. destruct Hs as (H30 & Hrest).
      apply (EN_values_all_met (c :: p) Hne).
      split; [unfold EN.checkLength; lia | exact Hrest]. }
    destruct (EN_messages_eq p Hne) as [_ Hsg].
    rewrite Hsg, EN_suggestions_shape, Hall, Hs. reflexivity. }
  assert (HT : PasswordAnalysis.score (TR.analyze p) = 85 ->
      PasswordAnalysis.suggestions (TR.analyze p)
      = ["Güzel! Parolanız iyi bir güvenlik seviyesine sahip.";
         "Mükemmel! Parolanız çok güçlü görünüyor."]%string).
  { intros Hs. assert (Hne : p <> []) by (intros ->; discriminate Hs).
    assert (Hall : Criteria.values (PasswordAnalysis.criteria (TR.analyze p))
                   = repeat true 8).
    { rewrite TR_score_eq in Hs. destruct p as [|c p]; [congruence|].
      change (List.length (c :: p) =? 0)%nat with false in Hs.
      cbv iota in Hs. rewrite TR_runAllValidations_eq in Hs.
      apply max_score_outputs in Hs. destruct Hs as (H30 & Hrest).
      apply (TR_values_all_met (c :: p) Hne).
      split; [unfold Validators.checkLength; lia | exact Hrest]. }
    destruct (TR_messages_eq p Hne) as [_ Hsg].
    rewrite Hsg, TR_suggestions_shape, Hall, Hs. reflexivity. }
  split; [|split; [exact HE | split; [|exact HT]]].
  - split; [|intros Hs; rewrite (HE Hs); right; left; reflexivity].
    intros Hin. destruct p as [|c p].
    { destruct Hin as [E | []]. discriminate E. }
    assert (Hne : c :: p <> []) by discriminate.
    destruct (EN_messages_eq (c :: p) Hne) as [_ Hsg].
    rewrite Hsg, EN_suggestions_shape in Hin.
    pose proof (EN_score_range (c :: p)) as Hr.
    rewrite !in_app_iff in Hin. destruct Hin as [Hin | [Hin | [Hin | Hin]]].
    + destruct (_ <? 50); [destruct Hin as [E | []]; discriminate E
                          | destruct Hin].
    + apply unmet_subset in Hin. exfalso. revert Hin.
      apply not_in_by_eqb. reflexivity.
    + destruct (70 <=? _); [destruct Hin as [E | []]; discriminate E
                           | destruct Hin].
    + destruct (Z.leb_spec 85 (PasswordAnalysis.score (EN.analyze (c :: p))));
        [lia | destruct Hin].
  - split; [|intros Hs; rewrite (HT Hs); right; left; reflexivity].
    intros Hin. destruct p as [|c p].
    { destruct Hin as [E | []]. discriminate E. }
    assert (Hne : c :: p <> []) by discriminate.
    destruct (TR_messages_eq (c :: p) Hne) as [_ Hsg].
    rewrite Hsg, TR_suggestions_shape in Hin.
    assert (Hr : PasswordAnalysis.score (TR.analyze (c :: p)) <= 85).
    { rewrite TR_score_eq, TR_runAllValidations_eq.
      rewrite (score_is_clamp Validators.WEAK_PASSWORDS
                 Validators.SEQUENTIAL_PATTERNS (c :: p)).
      apply score_le_85. }
    rewrite !in_app_iff in Hin. destruct Hin as [Hin | [Hin | [Hin | Hin]]].
    + destruct (_ <? 50); [destruct Hin as [E | []]; discriminate E
                          | destruct Hin].
    + apply unmet_subset in Hin. exfalso. revert Hin.
      apply not_in_by_eqb. reflexivity.
    + destruct (70 <=? _); [destruct Hin as [E | []]; discriminate E
                           | destruct Hin].
    + destruct (Z.leb_spec 85 (PasswordAnalysis.score (TR.analyze (c :: p))));
        [lia | destruct Hin].
Qed.

End ClosingLine.
